(** * Wellbeing Assistant API: the chat triage pipeline of [main.py]

    A shallow embedding of [classify_emotion], [risk_score] and the
    [/api/chat] handler [chat], and the properties of the pipeline
    that the specification states about them.

    Modelling choices.
    - A Python [str] is a [string]: the sequence of the bytes of the
      text in UTF-8.  [k in t] is the substring test.  On a text of
      ASCII characters [str.lower] lower-cases the letters A to Z and
      keeps the rest.  On any other text its result comes from the
      Unicode tables of the interpreter (the Kelvin sign becomes k, a
      capital sigma becomes one of two letters according to its place
      in the word); that result is the field [unicode_lower] of the
      parameter [python], and every statement below holds whatever it
      is.  The evaluated
      examples are ASCII texts.  A character is a byte that is not a
      UTF-8 continuation byte, with the continuation bytes after it.
    - A Python [float] score is a rational number [Q].  The handler only
      ever compares scores and takes [max] and [min] of them against the
      decimal literals [0.0], [0.6], [0.85] and [1.0]; no arithmetic is
      performed on a score, so nothing is rounded, and the scores that
      reach a comparison are numbers.  Results are compared with
      Leibniz equality: the functions return the literals themselves.
    - A dict literal handed to the store is an association list in the
      order of the source; [EMOJI_RESPONSES] likewise.
    - [chat] runs in a small state-and-exception monad.  The state is
      the list of the documents that the persistence collaborator has
      accepted, as [chat] passed them, oldest first; an exception is a
      write that the collaborator refused, and it ends the turn. *)

From Stdlib Require Import QArith ZArith String Ascii List Bool Lia Lqa.
Import ListNotations.

Open Scope string_scope.
Open Scope Q_scope.

(** ** Strings *)

Module Str.

(** [c.lower()] on one byte: [A]..[Z] move to [a]..[z], every other byte
    is kept. *)
Definition lower_ascii (c : ascii) : ascii :=
  let n := nat_of_ascii c in
  if (65 <=? n)%nat && (n <=? 90)%nat then ascii_of_nat (n + 32) else c.

(** [text.lower()] on a text of ASCII characters. *)
Fixpoint ascii_lower (s : string) : string :=
  match s with
  | EmptyString => EmptyString
  | String c s' => String (lower_ascii c) (ascii_lower s')
  end.

(** Whether every character of the text is an ASCII character. *)
Fixpoint is_ascii (s : string) : bool :=
  match s with
  | EmptyString => true
  | String c s' => (nat_of_ascii c <? 128)%nat && is_ascii s'
  end.

(** Whether a byte continues a character of a UTF-8 text. *)
Definition is_continuation (c : ascii) : bool :=
  let n := nat_of_ascii c in (128 <=? n)%nat && (n <? 192)%nat.

(** [len(s)]: the number of characters. *)
Fixpoint char_count (s : string) : nat :=
  match s with
  | EmptyString => 0
  | String c s' =>
      ((if is_continuation c then 0 else 1) + char_count s')%nat
  end.

(** [s[:n]]: the first [n] characters, each with its continuation
    bytes. *)
Fixpoint take_chars (n : nat) (s : string) : string :=
  match s with
  | EmptyString => EmptyString
  | String c s' =>
      if is_continuation c then String c (take_chars n s')
      else match n with
           | O => EmptyString
           | S n' => String c (take_chars n' s')
           end
  end.

(** [k in t] for two strings: [k] starts at some position of [t].  The
    empty string is in every string, as in Python. *)
Fixpoint isin (k t : string) : bool :=
  if prefix k t then true
  else match t with
       | EmptyString => false
       | String _ t' => isin k t'
       end.

(** [any(k in t for k in ks)] *)
Definition any_in (ks : list string) (t : string) : bool :=
  existsb (fun k => isin k t) ks.

(** What "occurs as a substring" means. *)
Definition Substring (k t : string) : Prop :=
  exists pre post : string, t = pre ++ k ++ post.

(** Some element of [ks] occurs in [t]. *)
Definition Occurs (ks : list string) (t : string) : Prop :=
  exists k : string, In k ks /\ Substring k t.

End Str.

(** ** Scores *)

(** [score >= bound] *)
Definition Qge_bool (x y : Q) : bool := Qle_bool y x.

(** [x < y] *)
Definition Qlt_bool (x y : Q) : bool := negb (Qle_bool y x).

(** Python's [max(a, b)]: the first argument unless the second is
    strictly greater. *)
Definition py_max (a b : Q) : Q := if Qlt_bool a b then b else a.

(** Python's [min(a, b)]: the first argument unless the second is
    strictly smaller. *)
Definition py_min (a b : Q) : Q := if Qlt_bool b a then b else a.

(** ** Simple emotion + risk utilities *)

Definition RISK_KEYWORDS : list string :=
  ["suicide"; "kill myself"; "end it"; "die"; "self harm"; "cut myself";
   "worthless"; "no reason to live"].

(** The keyword lists that [classify_emotion] and [risk_score] write in
    place. *)
Definition JOY_KEYWORDS : list string :=
  ["happy"; "great"; "good"; "awesome"; "yay"; ":)"].
Definition SADNESS_KEYWORDS : list string :=
  ["sad"; "down"; "cry"; "depressed"; ":("].
Definition ANGER_KEYWORDS : list string :=
  ["angry"; "mad"; "furious"; "annoyed"].
Definition ANXIETY_KEYWORDS : list string :=
  ["worried"; "anxious"; "scared"; "nervous"; "panic"].
Definition NEGATIVE_KEYWORDS : list string :=
  ["hopeless"; "worthless"; "hate myself"; "can't go on"].

(** ** Canned replies *)

Definition EMOJI_RESPONSES : list (string * string) :=
  [("joy", "I'm happy to hear that! Want a fun fact or a joke?");
   ("sadness",
    "I'm here with you. Want to try a short breathing exercise together?");
   ("anger",
    "That sounds frustrating. Want to label the feeling and take a 10-second pause?");
   ("anxiety",
    "It’s okay to feel worried. Let's try box breathing: 4-in, 4-hold, 4-out, 4-hold.");
   ("neutral", "I’m listening. Tell me more.")].

(** The first binding of key [k], if any. *)
Fixpoint dict_lookup {V : Type} (d : list (string * V)) (k : string)
  : option V :=
  match d with
  | [] => None
  | (k', v) :: d' => if String.eqb k' k then Some v else dict_lookup d' k
  end.

(** [d.get(k, default)] *)
Definition dict_get {V : Type} (d : list (string * V)) (k : string)
  (default : V) : V :=
  match dict_lookup d k with
  | Some v => v
  | None => default
  end.

(** The reply of the [score >= 0.85] branch. *)
Definition CRISIS_REPLY : string :=
  "I’m really glad you told me. You matter and you deserve help. "
  ++ "I’d like to help you reach a trusted adult or a professional. "
  ++ "If you're in immediate danger, please call your local emergency number. "
  ++ "Would you like me to share a helpful message with your parent now?".

(** The two fixed parts around the base reply in the [score >= 0.6]
    branch. *)
Definition HARD_WORDS_PREFIX : string :=
  "I’m noticing words that sound really hard. ".
Definition NEED_HELP_SUFFIX : string :=
  " You can also press ‘I need help’ to contact a trusted adult.".

(** ** Requests, responses and documents *)

Record ChatRequest : Type := mkChatRequest {
  child_id : string;
  text : string
}.

Record ChatResponse : Type := mkChatResponse {
  response : string;
  emotion : string;
  resp_risk_score : Q
}.

(** The values that [chat] stores in a document. *)
Inductive value : Type :=
| VStr (s : string)
| VFloat (q : Q)
| VDatetime (t : Z).

(** A dict literal passed to [create_document]: the fields in the order
    of the source. *)
Definition document : Type := list (string * value).

(** The documents the collaborator has accepted, oldest first, each with
    the name of its collection. *)
Definition store : Type := list (string * document).

(** The documents of [s] that went to collection [c]. *)
Definition collection (c : string) (s : store) : list document :=
  map snd (filter (fun e => String.eqb (fst e) c) s).

(** ** The monad of the handler *)

Inductive exn : Type :=
| KeyError (k : string)
| PersistenceError (c : string).

Inductive result (A : Type) : Type :=
| Returned (a : A)
| Raised (e : exn).
Arguments Returned {A} a.
Arguments Raised {A} e.

Definition M (A : Type) : Type := store -> result A * store.

Definition ret {A : Type} (a : A) : M A := fun s => (Returned a, s).

Definition raise {A : Type} (e : exn) : M A := fun s => (Raised e, s).

Definition bind {A B : Type} (m : M A) (k : A -> M B) : M B :=
  fun s =>
    match m s with
    | (Returned a, s') => k a s'
    | (Raised e, s') => (Raised e, s')
    end.

Notation "x <- m ;; k" := (bind m (fun x => k))
  (at level 61, m at next level, right associativity).
Notation "m ;;; k" := (bind m (fun _ => k))
  (at level 61, right associativity).

(** [d[k]]: the value, or [KeyError]. *)
Definition dict_index {V : Type} (d : list (string * V)) (k : string)
  : M V :=
  match dict_lookup d k with
  | Some v => ret v
  | None => raise (KeyError k)
  end.

(** The three branches of the [if]/[elif]/[else] of [chat]. *)
Inductive tier : Type := tier_high | tier_medium | tier_none.

(** The branch that [chat] takes at [score]. *)
Definition escalation_tier (score : Q) : tier :=
  if Qge_bool score 0.85 then tier_high
  else if Qge_bool score 0.6 then tier_medium
  else tier_none.

(** ** Python dicts, continued *)

(** [d[k] = v]: the binding of an existing key is replaced in place, a
    new key goes to the end. *)
Fixpoint dict_set {V : Type} (d : list (string * V)) (k : string) (v : V)
  : list (string * V) :=
  match d with
  | [] => [(k, v)]
  | (k', v') :: d' =>
      if String.eqb k' k then (k', v) :: d' else (k', v') :: dict_set d' k v
  end.

(** ** The [/test] endpoint *)

(** The values of the status report. *)
Inductive jvalue : Type :=
| JNone
| JStr (s : string)
| JList (l : list string).

(** A call that returns, or raises an exception [e] with [str(e) = msg]. *)
Inductive attempt (A : Type) : Type :=
| Done (a : A)
| Failed (msg : string).
Arguments Done {A} a.
Arguments Failed {A} msg.

(** What [hasattr(db, 'name')] and [db.name] find: no such attribute, a
    value, or an attribute whose access raises something else than
    [AttributeError]. *)
Inductive attr : Type :=
| NoAttribute
| Attribute (v : string)
| AttributeRaises (msg : string).

(** The [db] object imported from [database], as [test_database] uses
    it. *)
Record Database : Type := mkDatabase {
  db_name : attr;
  list_collection_names : attempt (list string)
}.

(** The truth value of [os.getenv(name)]: unset and empty are false. *)
Definition truthy (v : option string) : bool :=
  match v with
  | Some s => negb (String.eqb s "")
  | None => false
  end.

(** [str(e)[:50]]: the first 50 characters of the message. *)
Definition first50 (msg : string) : string := Str.take_chars 50 msg.

Definition test_database (db : option Database)
  (getenv : string -> option string) : list (string * jvalue) :=
  let response :=
    [("backend", JStr "✅ Running");
     ("database", JStr "❌ Not Available");
     ("database_url", JNone);
     ("database_name", JNone);
     ("connection_status", JStr "Not Connected");
     ("collections", JList [])] in
  let response :=
    match db with
    | Some db =>
        let response := dict_set response "database" (JStr "✅ Available") in
        let response :=
          dict_set response "database_url" (JStr "✅ Configured") in
        match
          match db_name db with
          | Attribute v => Done v
          | NoAttribute => Done "✅ Connected"
          | AttributeRaises msg => Failed msg
          end
        with
        | Done name =>
            let response := dict_set response "database_name" (JStr name) in
            let response :=
              dict_set response "connection_status" (JStr "Connected") in
            match list_collection_names db with
            | Done collections =>
                let response :=
                  dict_set response "collections"
                    (JList (firstn 10 collections)) in
                dict_set response "database" (JStr "✅ Connected & Working")
            | Failed msg =>
                dict_set response "database"
                  (JStr ("⚠️  Connected but Error: " ++ first50 msg))
            end
        | Failed msg =>
            dict_set response "database" (JStr ("❌ Error: " ++ first50 msg))
        end
    | None => dict_set response "database" (JStr "⚠️  Available but not initialized")
    end in
  let response :=
    dict_set response "database_url"
      (JStr (if truthy (getenv "DATABASE_URL")
             then "✅ Set" else "❌ Not Set")) in
  let response :=
    dict_set response "database_name"
      (JStr (if truthy (getenv "DATABASE_NAME")
             then "✅ Set" else "❌ Not Set")) in
  response.

(** ** The listing endpoints *)

(** The values of a document read back from the store. *)
Inductive svalue : Type :=
| SNone
| SStr (s : string)
| SFloat (q : Q)
| SDatetime (t : Z)
| SObjectId (hex : string).

Definition sdoc : Type := list (string * svalue).

Section Listing.

(** [database.get_documents(collection_name, filter, limit)], which
    [main.py] imports and which is not among the source files: the
    documents it returns, or the exception it raises. *)
Variable get_documents : string -> sdoc -> Z -> result (list sdoc).

(** How Python prints a float and a datetime, and
    [datetime.isoformat]. *)
Variable float_str : Q -> string.
Variable datetime_str : Z -> string.
Variable isoformat : Z -> string.

(** [str(v)]: a string is itself, an [ObjectId] is its hex digits. *)
Definition py_str (v : svalue) : string :=
  match v with
  | SNone => "None"
  | SStr s => s
  | SFloat q => float_str q
  | SDatetime t => datetime_str t
  | SObjectId hex => hex
  end.

(** The value under ["items"] of the dict that [list_messages]
    returns. *)
Definition list_messages (child_id : string) (limit : Z)
  : result (list sdoc) :=
  match get_documents "message" [("child_id", SStr child_id)] limit with
  | Raised e => Raised e
  | Returned docs =>
      Returned
        (map (fun d =>
                let d := dict_set d "_id" (SStr (py_str (dict_get d "_id" SNone))) in
                match dict_get d "created_at" SNone with
                | SDatetime t => dict_set d "created_at" (SStr (isoformat t))
                | _ => d
                end)
             docs)
  end.

(** The value under ["items"] of the dict that [list_risk] returns. *)
Definition list_risk (child_id : string) (limit : Z)
  : result (list sdoc) :=
  match get_documents "riskevent" [("child_id", SStr child_id)] limit with
  | Raised e => Raised e
  | Returned docs =>
      Returned
        (map (fun d =>
                let d := dict_set d "_id" (SStr (py_str (dict_get d "_id" SNone))) in
                match dict_get d "occurred_at" SNone with
                | SDatetime t => dict_set d "occurred_at" (SStr (isoformat t))
                | _ => d
                end)
             docs)
  end.

End Listing.

(** ** The [/api/positivity] endpoint *)

Definition POSITIVE_AFFIRMATIONS : list string :=
  ["You are enough, exactly as you are."; "Every small step counts. I'm proud of you."; "Your feelings matter and so do you."].

Definition QUOTES : list string :=
  ["In the middle of difficulty lies opportunity. — Albert Einstein"; "This too shall pass."].

Definition JOKES : list string :=
  ["Why did the math book look sad? It had too many problems."; "What do you call cheese that isn’t yours? Nacho cheese!"].

(** [random.choice(seq)] when the generator draws [draw]: the element
    at an index below [len(seq)], or [IndexError] on an empty
    sequence. *)
Definition random_choice (draw : nat) (seq : list string) : option string :=
  nth_error seq (draw mod length seq).

Definition positivity (draw1 draw2 draw3 : nat)
  : option (list (string * string)) :=
  match random_choice draw1 POSITIVE_AFFIRMATIONS,
        random_choice draw2 QUOTES,
        random_choice draw3 JOKES with
  | Some affirmation, Some quote, Some joke =>
      Some [("affirmation", affirmation); ("quote", quote); ("joke", joke)]
  | _, _, _ => None
  end.

(** ** The schemas of [schemas.py]

    The fields that the models [RiskEvent] and [Message] declare, read
    strictly: a field holds a value of its declared type, within its
    declared bounds; a field declared [Optional] may be absent; keys
    that the model does not declare are ignored. *)

Definition is_str (v : option value) : bool :=
  match v with
  | Some (VStr _) => true
  | _ => false
  end.

Definition is_optional_str (v : option value) : bool :=
  match v with
  | None | Some (VStr _) => true
  | _ => false
  end.

(** A float with [ge=0] and [le=1]. *)
Definition is_unit_float (v : option value) : bool :=
  match v with
  | Some (VFloat q) => Qge_bool q 0 && Qle_bool q 1
  | _ => false
  end.

Definition RiskEvent_valid (d : document) : bool :=
  is_str (dict_lookup d "child_id")
  && match dict_lookup d "level" with
     | Some (VStr level) =>
         existsb (String.eqb level) ["low"; "medium"; "high"]
     | _ => false
     end
  && is_str (dict_lookup d "reason")
  && is_unit_float (dict_lookup d "score")
  && match dict_lookup d "occurred_at" with
     | None | Some (VDatetime _) => true
     | _ => false
     end.

Definition Message_valid (d : document) : bool :=
  is_str (dict_lookup d "child_id")
  && is_str (dict_lookup d "text")
  && is_optional_str (dict_lookup d "emotion")
  && match dict_lookup d "risk_score" with
     | None => true
     | v => is_unit_float v
     end
  && is_optional_str (dict_lookup d "response").

(** The model that the naming rule of [schemas.py] gives a collection:
    the class name in lowercase. *)
Definition schema_valid (entry : string * document) : bool :=
  if String.eqb (fst entry) "riskevent" then RiskEvent_valid (snd entry)
  else if String.eqb (fst entry) "message" then Message_valid (snd entry)
  else false.

(** ** The classifier and the scorer *)

(** What the interpreter that runs the code decides: [text.lower()] on
    a text that has a character outside ASCII, which comes from its
    Unicode tables. *)
Record Interpreter : Type := mkInterpreter {
  unicode_lower : string -> string
}.

(** An interpreter that lower-cases the ASCII letters only. *)
Definition ascii_only : Interpreter := mkInterpreter Str.ascii_lower.

Section Pipeline.

Variable python : Interpreter.

(** [text.lower()] *)
Definition lower (text : string) : string :=
  if Str.is_ascii text then Str.ascii_lower text
  else unicode_lower python text.
Definition classify_emotion (text : string) : string :=
  let t := lower text in
  if Str.any_in JOY_KEYWORDS t then "joy"
  else if Str.any_in SADNESS_KEYWORDS t then "sadness"
  else if Str.any_in ANGER_KEYWORDS t then "anger"
  else if Str.any_in ANXIETY_KEYWORDS t then "anxiety"
  else "neutral".

(** One turn of the loop [for kw in RISK_KEYWORDS] over the running
    score. *)
Definition risk_step (t : string) (score : Q) (kw : string) : Q :=
  if Str.isin kw t then py_max score 0.85 else score.

Definition risk_score (text : string) : Q :=
  let t := lower text in
  let score := 0.0 in
  let score := fold_left (risk_step t) RISK_KEYWORDS score in
  let score := if Str.any_in NEGATIVE_KEYWORDS t then py_max score 0.6
               else score in
  py_min 1.0 score.

Section Chat.

(** Whether the collaborator accepts a write, given what it holds. *)
Variable db_accepts : store -> string -> document -> bool.

(** The reading of [datetime.now(timezone.utc)] during the request. *)
Variable utc_now : Z.

(** Modelled from the spec: [database.create_document] is imported by
    [main.py] and is not among the source files.  It is the
    persistence collaborator's one operation,
    [create_document(collection_name, fields)]: the document is stored
    in the named collection, or the write fails and the failure
    propagates to the caller.  The identifier it returns is not used
    by [chat]. *)
Definition create_document (collection_name : string) (data : document)
  : M unit :=
  fun s =>
    if db_accepts s collection_name data
    then (Returned tt, (s ++ [(collection_name, data)])%list)
    else (Raised (PersistenceError collection_name), s).

(** Lines 137-178 of [chat], as a function of the two locals [emotion]
    and [score] computed on lines 134-135. *)
Definition chat_from (req : ChatRequest) (emotion : string) (score : Q)
  : M ChatResponse :=
  neutral <- dict_index EMOJI_RESPONSES "neutral" ;;
  let base_reply := dict_get EMOJI_RESPONSES emotion neutral in
  reply <-
    (if Qge_bool score 0.85 then
       let reply := CRISIS_REPLY in
       create_document "riskevent"
         [("child_id", VStr (child_id req));
          ("level", VStr "high");
          ("reason", VStr "Text trigger keyword");
          ("score", VFloat score);
          ("occurred_at", VDatetime utc_now)] ;;;
       ret reply
     else if Qge_bool score 0.6 then
       let reply := HARD_WORDS_PREFIX ++ base_reply ++ NEED_HELP_SUFFIX in
       create_document "riskevent"
         [("child_id", VStr (child_id req));
          ("level", VStr "medium");
          ("reason", VStr "Negative self-talk");
          ("score", VFloat score);
          ("occurred_at", VDatetime utc_now)] ;;;
       ret reply
     else
       ret base_reply) ;;
  create_document "message"
    [("child_id", VStr (child_id req));
     ("text", VStr (text req));
     ("emotion", VStr emotion);
     ("risk_score", VFloat score);
     ("response", VStr reply)] ;;;
  ret (mkChatResponse reply emotion score).

Definition chat (req : ChatRequest) : M ChatResponse :=
  let emotion := classify_emotion (text req) in
  let score := risk_score (text req) in
  chat_from req emotion score.

End Chat.

(** A collaborator that accepts every write. *)
Definition db_available : store -> string -> document -> bool :=
  fun _ _ _ => true.

(** A collaborator that refuses the collection [c] and accepts every
    other one. *)
Definition db_without (c : string) : store -> string -> document -> bool :=
  fun _ c' _ => negb (String.eqb c' c).

(** ** The run of the handler, summarised

    These definitions are not functions of the source.  They name what
    one run of [chat_from] amounts to, branch by branch, and
    [chat_from_run] proves that [chat_from] is that. *)

(** [EMOJI_RESPONSES.get(emotion, EMOJI_RESPONSES["neutral"])] *)
Definition base_reply_for (emotion : string) : string :=
  dict_get EMOJI_RESPONSES emotion "I’m listening. Tell me more.".

Definition tier_reply (emotion : string) (score : Q) : string :=
  match escalation_tier score with
  | tier_high => CRISIS_REPLY
  | tier_medium =>
      HARD_WORDS_PREFIX ++ base_reply_for emotion ++ NEED_HELP_SUFFIX
  | tier_none => base_reply_for emotion
  end.

Definition risk_event (utc_now : Z) (req : ChatRequest)
  (level reason : string) (score : Q) : string * document :=
  ("riskevent",
   [("child_id", VStr (child_id req));
    ("level", VStr level);
    ("reason", VStr reason);
    ("score", VFloat score);
    ("occurred_at", VDatetime utc_now)]).

Definition tier_events (utc_now : Z) (req : ChatRequest) (score : Q)
  : store :=
  match escalation_tier score with
  | tier_high => [risk_event utc_now req "high" "Text trigger keyword" score]
  | tier_medium => [risk_event utc_now req "medium" "Negative self-talk" score]
  | tier_none => []
  end.

Definition message_entry (req : ChatRequest) (emotion : string) (score : Q)
  (reply : string) : string * document :=
  ("message",
   [("child_id", VStr (child_id req));
    ("text", VStr (text req));
    ("emotion", VStr emotion);
    ("risk_score", VFloat score);
    ("response", VStr reply)]).

(** The calls [create_document c d] for the entries [(c, d)], in order,
    stopping at the first that fails. *)
Fixpoint persist_all (db_accepts : store -> string -> document -> bool)
  (entries : store) : M unit :=
  match entries with
  | [] => ret tt
  | (c, d) :: rest =>
      create_document db_accepts c d ;;; persist_all db_accepts rest
  end.

(** The reply of a run that returned. *)
Definition response_of (run : result ChatResponse * store) : option string :=
  match fst run with
  | Returned resp => Some (response resp)
  | Raised _ => None
  end.

(** ** The classifier as the specification words it

    The five labels, and the rule "test the keyword sets in the fixed
    priority order joy, sadness, anger, anxiety; the first label with a
    keyword in the lowercased text wins; otherwise neutral".  These two
    definitions follow the specification, not the source: they are what
    [classify_emotion] is compared with. *)

Definition EMOTION_LABELS : list string :=
  ["joy"; "sadness"; "anger"; "anxiety"; "neutral"].

Definition LABEL_PRIORITY : list (string * list string) :=
  [("joy", JOY_KEYWORDS); ("sadness", SADNESS_KEYWORDS);
   ("anger", ANGER_KEYWORDS); ("anxiety", ANXIETY_KEYWORDS)].

Fixpoint first_matching_label (table : list (string * list string))
  (t : string) : string :=
  match table with
  | [] => "neutral"
  | (label, ks) :: rest =>
      if Str.any_in ks t then label else first_matching_label rest t
  end.

Definition classify_spec (text : string) : string :=
  first_matching_label LABEL_PRIORITY (lower text).

(** * Properties *)

(** ** Substring test *)

Section StrFacts.
Import Str.

Lemma prefix_iff (k t : string) :
  prefix k t = true <-> exists post : string, t = k ++ post.
Proof.
  revert t; induction k as [|a k IH]; intros t.
  - split; [intros _; now exists t | intros _; now destruct t].
  - destruct t as [|b t]; simpl.
    + split; [discriminate | intros [post H]; discriminate].
    + destruct (ascii_dec a b) as [->|Hab].
      * rewrite IH; split; intros [post H]; exists post.
        -- now rewrite H.
        -- now injection H.
      * split; [discriminate | intros [post H]].
        injection H as H1 _; now elim Hab.
Qed.

Lemma isin_unfold (k t : string) :
  isin k t =
  if prefix k t then true
  else match t with EmptyString => false | String _ t' => isin k t' end.
Proof. destruct t; reflexivity. Qed.

Lemma isin_iff (k t : string) : isin k t = true <-> Substring k t.
Proof.
  unfold Substring; split.
  - induction t as [|c t IH]; rewrite isin_unfold;
      destruct (prefix k _) eqn:Hp.
    + intros _; apply prefix_iff in Hp as [post ->]; now exists "", post.
    + discriminate.
    + intros _; apply prefix_iff in Hp as [post ->]; now exists "", post.
    + intros H; destruct (IH H) as (pre & post & ->).
      now exists (String c pre), post.
  - intros (pre & post & ->); induction pre as [|c pre IH];
      rewrite isin_unfold.
    + replace (prefix k ("" ++ k ++ post)) with true; [reflexivity|].
      symmetry; apply prefix_iff; now exists post.
    + destruct (prefix k _); [reflexivity | exact IH].
Qed.

Lemma any_in_iff (ks : list string) (t : string) :
  any_in ks t = true <-> Occurs ks t.
Proof.
  unfold any_in, Occurs; rewrite existsb_exists.
  split; intros (k & Hin & H); exists k; (split; [exact Hin|]);
    now apply isin_iff.
Qed.

Lemma any_in_false_iff (ks : list string) (t : string) :
  any_in ks t = false <-> ~ Occurs ks t.
Proof.
  rewrite <- any_in_iff; destruct (any_in ks t); split; intros H;
    congruence || (now elim H).
Qed.

Lemma Occurs_app (ks ks' : list string) (t : string) :
  Occurs (ks ++ ks') t <-> Occurs ks t \/ Occurs ks' t.
Proof.
  unfold Occurs; split.
  - intros (k & Hin & H); apply in_app_or in Hin as [Hin|Hin];
      [left|right]; now exists k.
  - intros [(k & Hin & H)|(k & Hin & H)]; exists k;
      (split; [apply in_or_app; tauto | exact H]).
Qed.

End StrFacts.

(** ** Comparisons and the running score *)

Lemma Qge_bool_true (x y : Q) : Qge_bool x y = true <-> y <= x.
Proof. apply Qle_bool_iff. Qed.

Lemma Qge_bool_false (x y : Q) : Qge_bool x y = false <-> x < y.
Proof.
  unfold Qge_bool; split; intros H.
  - apply Qnot_le_lt; intros Hle; apply Qle_bool_iff in Hle; congruence.
  - destruct (Qle_bool y x) eqn:E; [|reflexivity].
    apply Qle_bool_iff in E; elim (Qlt_not_le _ _ H E).
Qed.

Lemma py_min_clamps (x : Q) : py_min 1.0 x <= 1.0.
Proof.
  unfold py_min, Qlt_bool; destruct (Qle_bool 1.0 x) eqn:E; simpl.
  - apply Qle_refl.
  - apply Qlt_le_weak, (proj1 (Qge_bool_false x 1.0)); exact E.
Qed.

Section RunningScore.

Variable t : string.

Lemma risk_loop_high (kws : list string) :
  fold_left (risk_step t) kws 0.85 = 0.85.
Proof.
  induction kws as [|kw kws IH]; [reflexivity|].
  simpl; unfold risk_step at 2; destruct (Str.isin kw t); exact IH.
Qed.

Lemma risk_loop (kws : list string) :
  fold_left (risk_step t) kws 0.0 =
  if Str.any_in kws t then 0.85 else 0.0.
Proof.
  induction kws as [|kw kws IH]; [reflexivity|].
  simpl; unfold risk_step at 2; destruct (Str.isin kw t); simpl.
  - apply risk_loop_high.
  - exact IH.
Qed.

End RunningScore.

(** The score by cases on the two lexicons. *)
Lemma risk_score_cases (text : string) :
  risk_score text =
  if Str.any_in RISK_KEYWORDS (lower text) then 0.85
  else if Str.any_in NEGATIVE_KEYWORDS (lower text) then 0.6
  else 0.0.
Proof.
  unfold risk_score; rewrite risk_loop.
  destruct (Str.any_in RISK_KEYWORDS _), (Str.any_in NEGATIVE_KEYWORDS _);
    reflexivity.
Qed.

(** Closed comparisons of scores, by evaluation. *)
Ltac q_eval :=
  unfold Qle, Qlt, Z.le, Z.lt; vm_compute;
  first [reflexivity | discriminate].

(** ** The escalation tier *)

(** The thresholds of the branch selector. *)
Lemma escalation_tier_cases (score : Q) :
  (escalation_tier score = tier_high <-> 0.85 <= score) /\
  (escalation_tier score = tier_medium <-> 0.6 <= score /\ score < 0.85) /\
  (escalation_tier score = tier_none <-> score < 0.6) /\
  escalation_tier 0.6 = tier_medium /\
  escalation_tier 0.85 = tier_high.
Proof.
  pose proof (Qge_bool_true score 0.85) as [T1 T1'].
  pose proof (Qge_bool_false score 0.85) as [F1 F1'].
  pose proof (Qge_bool_true score 0.6) as [T2 T2'].
  pose proof (Qge_bool_false score 0.6) as [F2 F2'].
  unfold escalation_tier.
  destruct (Qge_bool score 0.85); [|destruct (Qge_bool score 0.6)];
    repeat split; try reflexivity; try discriminate; intros;
    try (specialize (T1 eq_refl)); try (specialize (F1 eq_refl));
    try (specialize (T2 eq_refl)); try (specialize (F2 eq_refl));
    try lra.
Qed.

(** ** The risk scorer *)

(** C10. The scorer returns one of exactly three values, 0.0, 0.6 or
    0.85, each of which some text reaches; no score falls strictly
    between them or above 0.85. *)
Theorem risk_score_three_values (text : string) :
  (risk_score text = 0.0 \/ risk_score text = 0.6 \/ risk_score text = 0.85)
  /\ ~ (0.0 < risk_score text /\ risk_score text < 0.6)
  /\ ~ (0.6 < risk_score text /\ risk_score text < 0.85)
  /\ ~ (0.85 < risk_score text /\ risk_score text <= 1.0)
  /\ risk_score "I had a great day" = 0.0
  /\ risk_score "I feel hopeless" = 0.6
  /\ risk_score "I want to kill myself" = 0.85.
Proof.
  rewrite risk_score_cases.
  destruct (Str.any_in RISK_KEYWORDS _); [|destruct (Str.any_in NEGATIVE_KEYWORDS _)];
    (split; [tauto|]);
    repeat split; try reflexivity;
    intros [H1 H2]; revert H1 H2; unfold Qlt, Qle; simpl; lia.
Qed.

(** C6. Every score lies in the closed interval from 0.0 to 1.0, and the
    value returned is the running score passed through [min(1.0, _)],
    which is at most 1.0 whatever the running score is. *)
Theorem risk_score_bounded (text : string) :
  0.0 <= risk_score text /\ risk_score text <= 1.0
  /\ (exists running : Q, risk_score text = py_min 1.0 running)
  /\ (forall running : Q, py_min 1.0 running <= 1.0).
Proof.
  split; [|split; [|split]].
  - rewrite risk_score_cases.
    destruct (Str.any_in RISK_KEYWORDS _); [|destruct (Str.any_in NEGATIVE_KEYWORDS _)];
      unfold Qle; simpl; lia.
  - apply py_min_clamps.
  - unfold risk_score; eexists; reflexivity.
  - exact py_min_clamps.
Qed.

(** C2. A keyword of the high-severity lexicon in the lowercased text
    puts the score at 0.85 or more; a phrase of the secondary lexicon
    puts it at 0.6 or more, by a [max] with the running score of the
    first step, so that the running score is never lowered.  The score
    of "I want to kill myself" is at least 0.85, and the score of
    "I feel hopeless", a text without high-severity keyword, is at least
    0.6 and below 0.85. *)
Theorem risk_score_floors (text : string) :
  (Str.Occurs RISK_KEYWORDS (lower text) -> 0.85 <= risk_score text)
  /\ (Str.Occurs NEGATIVE_KEYWORDS (lower text) ->
      0.6 <= risk_score text)
  /\ (Str.Occurs NEGATIVE_KEYWORDS (lower text) ->
      let running :=
        fold_left (risk_step (lower text)) RISK_KEYWORDS 0.0 in
      risk_score text = py_min 1.0 (py_max running 0.6)
      /\ running <= risk_score text)
  /\ 0.85 <= risk_score "I want to kill myself"
  /\ (0.6 <= risk_score "I feel hopeless"
      /\ risk_score "I feel hopeless" < 0.85)
  /\ ~ Str.Occurs RISK_KEYWORDS (lower "I feel hopeless").
Proof.
  repeat split.
  - intros H; apply any_in_iff in H.
    rewrite risk_score_cases, H; apply Qle_refl.
  - intros H; apply any_in_iff in H.
    rewrite risk_score_cases, H.
    destruct (Str.any_in RISK_KEYWORDS _); unfold Qle; simpl; lia.
  - apply any_in_iff in H.
    unfold risk_score; now rewrite H.
  - apply any_in_iff in H.
    rewrite risk_score_cases, risk_loop, H.
    destruct (Str.any_in RISK_KEYWORDS _); unfold Qle; simpl; lia.
  - q_eval.
  - q_eval.
  - apply any_in_false_iff; reflexivity.
Qed.

(** ** The classifier *)

(** The four tests of [classify_emotion] read as occurrences. *)
Ltac keyword_tests t :=
  pose proof (any_in_iff JOY_KEYWORDS t);
  pose proof (any_in_iff SADNESS_KEYWORDS t);
  pose proof (any_in_iff ANGER_KEYWORDS t);
  pose proof (any_in_iff ANXIETY_KEYWORDS t);
  destruct (Str.any_in JOY_KEYWORDS t);
  [| destruct (Str.any_in SADNESS_KEYWORDS t);
     [| destruct (Str.any_in ANGER_KEYWORDS t);
        [| destruct (Str.any_in ANXIETY_KEYWORDS t)]]].

(** C5. [classify_emotion] returns one of the five labels, and it is the
    label chosen by testing the keyword sets against the lowercased text
    in the order joy, sadness, anger, anxiety, the first set with a
    keyword in the text winning: it agrees with [classify_spec], and
    each label is returned exactly when its set is the first to occur.
    "good but sad" has a joy keyword and a sadness keyword and is
    classified as joy. *)
Theorem classify_emotion_priority (text : string) :
  let t := lower text in
  In (classify_emotion text) EMOTION_LABELS
  /\ classify_emotion text = classify_spec text
  /\ (classify_emotion text = "joy" <-> Str.Occurs JOY_KEYWORDS t)
  /\ (classify_emotion text = "sadness" <->
      ~ Str.Occurs JOY_KEYWORDS t /\ Str.Occurs SADNESS_KEYWORDS t)
  /\ (classify_emotion text = "anger" <->
      ~ Str.Occurs JOY_KEYWORDS t /\ ~ Str.Occurs SADNESS_KEYWORDS t
      /\ Str.Occurs ANGER_KEYWORDS t)
  /\ (classify_emotion text = "anxiety" <->
      ~ Str.Occurs JOY_KEYWORDS t /\ ~ Str.Occurs SADNESS_KEYWORDS t
      /\ ~ Str.Occurs ANGER_KEYWORDS t /\ Str.Occurs ANXIETY_KEYWORDS t)
  /\ (classify_emotion text = "neutral" <->
      ~ Str.Occurs JOY_KEYWORDS t /\ ~ Str.Occurs SADNESS_KEYWORDS t
      /\ ~ Str.Occurs ANGER_KEYWORDS t /\ ~ Str.Occurs ANXIETY_KEYWORDS t)
  /\ classify_emotion "good but sad" = "joy"
  /\ Str.Occurs JOY_KEYWORDS (lower "good but sad")
  /\ Str.Occurs SADNESS_KEYWORDS (lower "good but sad").
Proof.
  intros t.
  split; [|split; [reflexivity|]].
  - unfold classify_emotion, EMOTION_LABELS; fold t.
    keyword_tests t; simpl; tauto.
  - refine (conj _ (conj _ (conj _ (conj _ (conj _ (conj _ (conj _ _)))))));
      try reflexivity;
      try (apply any_in_iff; reflexivity);
      unfold classify_emotion; fold t;
      keyword_tests t; intuition (try discriminate; try congruence).
Qed.

(** C9. Both functions are defined on every string.  On the empty text,
    and on every text whose lowercased form holds none of the keywords
    that the function looks for, [classify_emotion] returns the default
    label neutral and [risk_score] returns 0.0. *)
Theorem classify_and_score_default :
  classify_emotion "" = "neutral"
  /\ risk_score "" = 0.0
  /\ forall text : string,
      (exists (label : string) (score : Q),
          classify_emotion text = label /\ risk_score text = score)
      /\ (~ Str.Occurs (JOY_KEYWORDS ++ SADNESS_KEYWORDS ++ ANGER_KEYWORDS
                          ++ ANXIETY_KEYWORDS) (lower text) ->
          classify_emotion text = "neutral")
      /\ (~ Str.Occurs (RISK_KEYWORDS ++ NEGATIVE_KEYWORDS) (lower text) ->
          risk_score text = 0.0).
Proof.
  split; [reflexivity|]; split; [reflexivity|].
  intros text; split; [|split].
  - now exists (classify_emotion text), (risk_score text).
  - rewrite !Occurs_app; intros Hno.
    unfold classify_emotion.
    keyword_tests (lower text); tauto.
  - rewrite Occurs_app, <- !any_in_iff; intros Hno.
    rewrite risk_score_cases.
    destruct (Str.any_in RISK_KEYWORDS _);
      [|destruct (Str.any_in NEGATIVE_KEYWORDS _)]; tauto.
Qed.

(** ** The handler *)

Section ChatRun.

Variable db : store -> string -> document -> bool.

Lemma persist_all_returned (entries : store) (s s' : store) (u : unit) :
  persist_all db entries s = (Returned u, s') -> s' = (s ++ entries)%list.
Proof.
  revert s; induction entries as [|[c d] rest IH]; intros s; simpl.
  - unfold ret; intros [= _ <-]; now rewrite app_nil_r.
  - unfold bind, create_document; destruct (db s c d); [|discriminate].
    intros H; apply IH in H; now rewrite <- app_assoc in H.
Qed.

Lemma persist_all_accepted (entries : store) (s : store) :
  (forall s0 c d, db s0 c d = true) ->
  persist_all db entries s = (Returned tt, (s ++ entries)%list).
Proof.
  intros Hacc; revert s; induction entries as [|[c d] rest IH]; intros s;
    simpl.
  - now rewrite app_nil_r.
  - unfold bind, create_document; rewrite Hacc, IH.
    now rewrite <- app_assoc.
Qed.

Lemma persist_all_raised (entries : store) (s s' : store) (e : exn) :
  persist_all db entries s = (Raised e, s') ->
  exists done rest c d,
    entries = (done ++ (c, d) :: rest)%list
    /\ s' = (s ++ done)%list /\ e = PersistenceError c
    /\ db s' c d = false.
Proof.
  revert s; induction entries as [|[c d] rest IH]; intros s; simpl.
  - discriminate.
  - unfold bind, create_document; destruct (db s c d) eqn:Hd.
    + intros H; apply IH in H as (done & rest' & c' & d' & -> & -> & -> & Hf).
      exists ((c, d) :: done)%list, rest', c', d'.
      rewrite <- app_assoc in Hf |- *; repeat split; assumption.
    + intros [= <- <-]; exists [], rest, c, d.
      rewrite app_nil_r; repeat split; assumption.
Qed.

Variable now : Z.

Lemma neutral_reply_found :
  dict_index EMOJI_RESPONSES "neutral" = ret "I’m listening. Tell me more.".
Proof. reflexivity. Qed.

(** One run of [chat_from]: the risk event of the tier, if any, is
    handed to the store, then the message, and the response is
    returned. *)
Lemma chat_from_run (req : ChatRequest) (e : string) (sc : Q) (s : store) :
  chat_from db now req e sc s =
  (persist_all db
     (tier_events now req sc
        ++ [message_entry req e sc (tier_reply e sc)])%list ;;;
   ret (mkChatResponse (tier_reply e sc) e sc)) s.
Proof.
  unfold chat_from, tier_events, tier_reply, escalation_tier.
  rewrite neutral_reply_found; unfold base_reply_for.
  destruct (Qge_bool sc 0.85); [|destruct (Qge_bool sc 0.6)];
    cbn [app persist_all]; unfold bind, create_document, ret;
    unfold risk_event, message_entry;
    repeat match goal with |- context [db ?s0 ?c ?d] => destruct (db s0 c d) end;
    reflexivity.
Qed.

Lemma chat_from_returned (req : ChatRequest) (e : string) (sc : Q)
  (s s' : store) (resp : ChatResponse) :
  chat_from db now req e sc s = (Returned resp, s') ->
  resp = mkChatResponse (tier_reply e sc) e sc
  /\ s' = (s ++ tier_events now req sc
             ++ [message_entry req e sc (tier_reply e sc)])%list.
Proof.
  rewrite chat_from_run; unfold bind at 1.
  destruct (persist_all db _ s) as [[u|x] s1] eqn:Hp; [|discriminate].
  unfold ret; intros [= <- <-]; split; [reflexivity|].
  now apply persist_all_returned in Hp.
Qed.

Lemma chat_from_accepted (req : ChatRequest) (e : string) (sc : Q)
  (s : store) :
  (forall s0 c d, db s0 c d = true) ->
  chat_from db now req e sc s =
  (Returned (mkChatResponse (tier_reply e sc) e sc),
   (s ++ tier_events now req sc
      ++ [message_entry req e sc (tier_reply e sc)])%list).
Proof.
  intros Hacc; rewrite chat_from_run; unfold bind at 1.
  now rewrite persist_all_accepted.
Qed.

End ChatRun.

Lemma dict_get_cases {V : Type} (d : list (string * V)) (k : string)
  (default : V) :
  dict_get d k default = default \/ In (dict_get d k default) (map snd d).
Proof.
  unfold dict_get; induction d as [|[k' v] d IH]; simpl; [now left|].
  destruct (String.eqb k' k); [right; now left | tauto].
Qed.

(** No canned reply is part of the crisis message. *)
Lemma crisis_reply_has_no_base_reply (e : string) :
  Str.isin (base_reply_for e) CRISIS_REPLY = false.
Proof.
  unfold base_reply_for.
  destruct (dict_get_cases EMOJI_RESPONSES e "I’m listening. Tell me more.")
    as [->|H]; [vm_compute; reflexivity|].
  simpl in H; decompose [or] H; clear H;
    match goal with
    | H : _ = dict_get _ _ _ |- _ => rewrite <- H; vm_compute; reflexivity
    | H : False |- _ => elim H
    end.
Qed.

(** C3. A chat request that scores in the high tier persists exactly one
    risk event, with level "high" and reason "Text trigger keyword"; one
    that scores in the medium tier persists exactly one, with level
    "medium" and reason "Negative self-talk"; one that scores in tier
    none persists none and makes no call for one: a collaborator that
    refuses every risk event fails the turn in the first two tiers and
    leaves it as it is in the third. *)
Theorem risk_event_per_tier
  (db : store -> string -> document -> bool) (now : Z) (req : ChatRequest)
  (s s' : store) (resp : ChatResponse) :
  chat db now req s = (Returned resp, s') ->
  exists written : store,
    s' = (s ++ written)%list /\
    match escalation_tier (risk_score (text req)) with
    | tier_high =>
        (exists d : document,
            collection "riskevent" written = [d]
            /\ dict_lookup d "level" = Some (VStr "high")
            /\ dict_lookup d "reason" = Some (VStr "Text trigger keyword"))
        /\ chat (db_without "riskevent") now req s =
           (Raised (PersistenceError "riskevent"), s)
    | tier_medium =>
        (exists d : document,
            collection "riskevent" written = [d]
            /\ dict_lookup d "level" = Some (VStr "medium")
            /\ dict_lookup d "reason" = Some (VStr "Negative self-talk"))
        /\ chat (db_without "riskevent") now req s =
           (Raised (PersistenceError "riskevent"), s)
    | tier_none =>
        collection "riskevent" written = []
        /\ chat (db_without "riskevent") now req s =
           (Returned resp, (s ++ written)%list)
    end.
Proof.
  unfold chat; intros H.
  apply chat_from_returned in H as [-> ->].
  eexists; split; [reflexivity|].
  rewrite chat_from_run; unfold tier_events.
  destruct (escalation_tier (risk_score (text req)));
    (split; [try (eexists; split; [|split]); reflexivity | reflexivity]).
Qed.

(** C4. The reply by tier, for every emotion label and every score that
    reach lines 137-178 of [chat]: at tier none it is the base reply of
    the emotion and nothing else; at tier medium it is the fixed
    "noticing hard words" sentence, then the base reply, then the fixed
    pointer to "I need help"; at tier high it is the fixed crisis
    message, in which no base reply of any emotion occurs. *)
Theorem reply_shape_per_tier
  (db : store -> string -> document -> bool) (now : Z) (req : ChatRequest)
  (e : string) (score : Q) (s s' : store) (resp : ChatResponse) :
  chat_from db now req e score s = (Returned resp, s') ->
  match escalation_tier score with
  | tier_none => response resp = base_reply_for e
  | tier_medium =>
      response resp =
      "I’m noticing words that sound really hard. "
      ++ base_reply_for e
      ++ " You can also press ‘I need help’ to contact a trusted adult."
  | tier_high =>
      response resp = CRISIS_REPLY
      /\ forall e' : string, ~ Str.Substring (base_reply_for e') (response resp)
  end.
Proof.
  intros H; apply chat_from_returned in H as [-> _].
  unfold tier_reply; destruct (escalation_tier score); cbn [response];
    try reflexivity.
  split; [reflexivity|].
  intros e' Hsub; apply isin_iff in Hsub.
  rewrite crisis_reply_has_no_base_reply in Hsub; discriminate.
Qed.

(** ** What one turn writes *)

Lemma risk_events_written (now : Z) (req : ChatRequest) (e : string)
  (sc : Q) (reply : string) :
  collection "riskevent"
    (tier_events now req sc ++ [message_entry req e sc reply])%list
  = map snd (tier_events now req sc).
Proof. unfold tier_events; destruct (escalation_tier sc); reflexivity. Qed.

Lemma messages_written (now : Z) (req : ChatRequest) (e : string)
  (sc : Q) (reply : string) :
  collection "message"
    (tier_events now req sc ++ [message_entry req e sc reply])%list
  = [snd (message_entry req e sc reply)].
Proof. unfold tier_events; destruct (escalation_tier sc); reflexivity. Qed.

Lemma tier_events_collection (now : Z) (req : ChatRequest) (sc : Q) :
  Forall (fun entry => fst entry = "riskevent") (tier_events now req sc)
  /\ (length (tier_events now req sc) <= 1)%nat.
Proof.
  unfold tier_events; destruct (escalation_tier sc); simpl;
    split; repeat constructor.
Qed.

(** The levels of the risk events of a turn depend on the score only. *)
Lemma tier_events_levels (now : Z) (req : ChatRequest) (sc : Q) :
  map (fun d => dict_lookup d "level") (map snd (tier_events now req sc))
  = match escalation_tier sc with
    | tier_high => [Some (VStr "high")]
    | tier_medium => [Some (VStr "medium")]
    | tier_none => []
    end.
Proof. unfold tier_events; destruct (escalation_tier sc); reflexivity. Qed.

Lemma tier_events_scores (now : Z) (req : ChatRequest) (sc : Q)
  (d : document) :
  In d (map snd (tier_events now req sc)) ->
  dict_lookup d "score" = Some (VFloat sc).
Proof.
  unfold tier_events; destruct (escalation_tier sc); simpl;
    intros [<-|[]] || intros []; reflexivity.
Qed.

(** C1. For every score that reaches the [if]/[elif]/[else] of [chat],
    the tier of the turn, read off the risk event that the branch
    taken stores, is [high] exactly when [score >= 0.85], [medium]
    exactly when [0.6 <= score < 0.85] and [none] (no risk event)
    exactly when [score < 0.6]; both lower bounds are inclusive, so 0.6
    selects [medium] and 0.85 selects [high].  [escalation_tier], the
    selector that [chat_from_run] shows [chat_from] to follow, has the
    same thresholds. *)
Theorem escalation_tier_thresholds
  (db : store -> string -> document -> bool) (now : Z) (req : ChatRequest)
  (e : string) (score : Q) (s s' : store) (resp : ChatResponse) :
  chat_from db now req e score s = (Returned resp, s') ->
  exists written : store,
    s' = (s ++ written)%list
    /\ let levels :=
         map (fun d => dict_lookup d "level")
           (collection "riskevent" written) in
       (levels = [Some (VStr "high")] <-> 0.85 <= score)
       /\ (levels = [Some (VStr "medium")] <->
           0.6 <= score /\ score < 0.85)
       /\ (levels = [] <-> score < 0.6)
       /\ (escalation_tier score = tier_high <-> 0.85 <= score)
       /\ (escalation_tier score = tier_medium <->
           0.6 <= score /\ score < 0.85)
       /\ (escalation_tier score = tier_none <-> score < 0.6)
       /\ escalation_tier 0.6 = tier_medium
       /\ escalation_tier 0.85 = tier_high.
Proof.
  intros H; apply chat_from_returned in H as [_ ->].
  eexists; split; [reflexivity|]; cbv zeta.
  rewrite risk_events_written by exact now; rewrite tier_events_levels.
  refine (conj _ (conj _ (conj _ (escalation_tier_cases score))));
    destruct (escalation_tier_cases score) as (Hh & Hm & Hn & _);
    revert Hh Hm Hn; destruct (escalation_tier score);
    intros [Hh Hh'] [Hm Hm'] [Hn Hn'];
    try (specialize (Hh eq_refl)); try (specialize (Hm eq_refl));
    try (specialize (Hn eq_refl));
    split; intros; try reflexivity; try discriminate; try assumption;
    try lra.
Qed.

(** C7. In a chat turn that persists a risk event, the [score] of the
    event and the [risk_score] of the message persisted by the same turn
    are both the scorer's output on the text of the request.  The tier,
    read off the levels of the risk events written, is a function of
    that score alone: two turns whose texts score the same write risk
    events of the same levels, whatever the children, the clocks, the
    collaborators and the documents stored before. *)
Theorem risk_event_score_is_message_score
  (db : store -> string -> document -> bool) (now : Z) (req : ChatRequest)
  (s s' : store) (resp : ChatResponse) :
  chat db now req s = (Returned resp, s') ->
  exists written : store,
    s' = (s ++ written)%list
    /\ (forall d : document,
          In d (collection "riskevent" written) ->
          dict_lookup d "score" = Some (VFloat (risk_score (text req))))
    /\ (exists m : document,
          collection "message" written = [m]
          /\ dict_lookup m "risk_score"
             = Some (VFloat (risk_score (text req))))
    /\ (forall (db2 : store -> string -> document -> bool) (now2 : Z)
               (req2 : ChatRequest) (s2 s2' written2 : store)
               (resp2 : ChatResponse),
          chat db2 now2 req2 s2 = (Returned resp2, s2') ->
          s2' = (s2 ++ written2)%list ->
          risk_score (text req2) = risk_score (text req) ->
          map (fun d => dict_lookup d "level")
              (collection "riskevent" written2)
          = map (fun d => dict_lookup d "level")
                (collection "riskevent" written)).
Proof.
  unfold chat; intros H; apply chat_from_returned in H as [-> ->].
  eexists; split; [reflexivity|].
  rewrite risk_events_written, messages_written by exact now.
  split; [|split].
  - apply tier_events_scores.
  - eexists; split; reflexivity.
  - intros db2 now2 req2 s2 s2' written2 resp2 H2 Hs2 Hscore.
    apply chat_from_returned in H2 as [_ ->].
    apply app_inv_head in Hs2 as <-.
    rewrite risk_events_written by exact now.
    now rewrite !tier_events_levels, Hscore.
Qed.

(** C8. Every chat turn that returns has persisted exactly one message
    document, made of the child, the text, the emotion, the score and
    the reply, as the last write of the turn: after the risk event when
    the tier has one, and in every tier alike.  With a collaborator
    that accepts the writes every turn returns; with one that refuses
    only messages every turn fails at the message write, once the risk
    event of the tier is stored: no tier skips the message write, and
    the message write does not replace the risk event. *)
Theorem message_recorded_in_every_tier
  (db : store -> string -> document -> bool) (now : Z) (req : ChatRequest)
  (s : store) :
  (forall (resp : ChatResponse) (s' : store),
      chat db now req s = (Returned resp, s') ->
      let message :=
        [("child_id", VStr (child_id req));
         ("text", VStr (text req));
         ("emotion", VStr (classify_emotion (text req)));
         ("risk_score", VFloat (risk_score (text req)));
         ("response", VStr (response resp))] in
      exists events : store,
        s' = (s ++ events ++ [("message", message)])%list
        /\ Forall (fun entry => fst entry = "riskevent") events
        /\ (length events <= 1)%nat
        /\ collection "message" (events ++ [("message", message)])%list
           = [message])
  /\ ((forall s0 c d, db s0 c d = true) ->
      exists (resp : ChatResponse) (s' : store),
        chat db now req s = (Returned resp, s'))
  /\ (exists events : store,
        chat (db_without "message") now req s
        = (Raised (PersistenceError "message"), (s ++ events)%list)
        /\ Forall (fun entry => fst entry = "riskevent") events
        /\ map (fun d => dict_lookup d "level") (map snd events)
           = match escalation_tier (risk_score (text req)) with
             | tier_high => [Some (VStr "high")]
             | tier_medium => [Some (VStr "medium")]
             | tier_none => []
             end).
Proof.
  unfold chat; split; [|split].
  - intros resp s' H; apply chat_from_returned in H as [-> ->].
    cbn zeta; cbn [response].
    exists (tier_events now req (risk_score (text req))).
    split; [reflexivity|].
    split; [apply tier_events_collection|].
    split; [apply tier_events_collection|].
    apply (messages_written now).
  - intros Hacc; rewrite chat_from_accepted by exact Hacc.
    eexists; eexists; reflexivity.
  - exists (tier_events now req (risk_score (text req))).
    split; [|split].
    + rewrite chat_from_run; unfold tier_events.
      destruct (escalation_tier _); cbn [app]; rewrite ?app_nil_r;
        reflexivity.
    + apply tier_events_collection.
    + apply tier_events_levels.
Qed.

(** ** The three end-to-end scenarios of the specification *)

Example scenario_high :
  let req := mkChatRequest "c1" "I feel worthless and want to die" in
  chat db_available 17 req [] =
  (Returned (mkChatResponse CRISIS_REPLY "neutral" 0.85),
   [risk_event 17 req "high" "Text trigger keyword" 0.85;
    message_entry req "neutral" 0.85 CRISIS_REPLY]).
Proof. vm_compute; reflexivity. Qed.

Example scenario_medium :
  let req := mkChatRequest "c1" "I'm so angry and hopeless" in
  let reply :=
    HARD_WORDS_PREFIX
    ++ "That sounds frustrating. Want to label the feeling and take a 10-second pause?"
    ++ NEED_HELP_SUFFIX in
  chat db_available 17 req [] =
  (Returned (mkChatResponse reply "anger" 0.6),
   [risk_event 17 req "medium" "Negative self-talk" 0.6;
    message_entry req "anger" 0.6 reply]).
Proof. vm_compute; reflexivity. Qed.

Example scenario_none :
  let req := mkChatRequest "c1" "I'm happy today" in
  let reply := "I'm happy to hear that! Want a fun fact or a joke?" in
  chat db_available 17 req [] =
  (Returned (mkChatResponse reply "joy" 0.0),
   [message_entry req "joy" 0.0 reply]).
Proof. vm_compute; reflexivity. Qed.

(** A refused risk event ends the turn before the message is written. *)
Example scenario_refused_event :
  let req := mkChatRequest "c1" "I feel worthless and want to die" in
  chat (db_without "riskevent") 17 req [] =
  (Raised (PersistenceError "riskevent"), []).
Proof. vm_compute; reflexivity. Qed.

(** * Further properties of the code *)

(** ** Embedding a text in a longer one *)

Section StrMore.
Import Str.

Lemma append_assoc (a b c : string) : (a ++ b) ++ c = a ++ b ++ c.
Proof. induction a as [|x a IH]; simpl; [reflexivity | now rewrite IH]. Qed.

Lemma ascii_lower_app (a b : string) :
  ascii_lower (a ++ b) = ascii_lower a ++ ascii_lower b.
Proof. induction a as [|x a IH]; simpl; [reflexivity | now rewrite IH]. Qed.

Lemma is_ascii_app (a b : string) :
  is_ascii (a ++ b) = is_ascii a && is_ascii b.
Proof.
  induction a as [|x a IH]; simpl; [reflexivity|].
  now rewrite IH, andb_assoc.
Qed.

Lemma Substring_embed (k t pre post : string) :
  Substring k t -> Substring k (pre ++ t ++ post).
Proof.
  intros (a & b & ->); exists (pre ++ a), (b ++ post).
  now rewrite !append_assoc.
Qed.

Lemma lower_ascii_text (t : string) :
  is_ascii t = true -> lower t = ascii_lower t.
Proof. intros H; unfold lower; now rewrite H. Qed.

Lemma any_in_embed (ks : list string) (t pre post : string) :
  is_ascii (pre ++ t ++ post) = true ->
  any_in ks (lower t) = true -> any_in ks (lower (pre ++ t ++ post)) = true.
Proof.
  intros Hascii.
  rewrite (lower_ascii_text _ Hascii).
  rewrite !is_ascii_app in Hascii.
  apply andb_prop in Hascii as [_ Hascii].
  apply andb_prop in Hascii as [Ht _].
  rewrite (lower_ascii_text _ Ht), !any_in_iff.
  intros (k & Hin & H); exists k; split; [exact Hin|].
  rewrite !ascii_lower_app; now apply Substring_embed.
Qed.

End StrMore.

(** ** The scorer and the classifier, further *)

Lemma worthless_is_risk (t : string) :
  Str.isin "worthless" t = true -> Str.any_in RISK_KEYWORDS t = true.
Proof.
  intros H; unfold Str.any_in; apply existsb_exists.
  exists "worthless"; split; [simpl; tauto | exact H].
Qed.

Lemma negative_keywords_split (t : string) :
  Str.any_in NEGATIVE_KEYWORDS t =
  Str.isin "worthless" t
  || Str.any_in ["hopeless"; "hate myself"; "can't go on"] t.
Proof.
  unfold Str.any_in, NEGATIVE_KEYWORDS; cbn [existsb].
  destruct (Str.isin "hopeless" t), (Str.isin "worthless" t); reflexivity.
Qed.

(** Which texts get which score.  The score is 0.85 exactly when a
    keyword of [RISK_KEYWORDS] occurs in the lowercased text, 0.0
    exactly when no keyword of either list occurs, and 0.6 exactly when
    no keyword of [RISK_KEYWORDS] occurs and one of "hopeless",
    "hate myself", "can't go on" does: "worthless" stands in both lists
    and always counts as high. *)
Theorem risk_score_value_iff (text : string) :
  (risk_score text = 0.85 <-> Str.Occurs RISK_KEYWORDS (lower text))
  /\ (risk_score text = 0.6 <->
      ~ Str.Occurs RISK_KEYWORDS (lower text)
      /\ Str.Occurs ["hopeless"; "hate myself"; "can't go on"]
           (lower text))
  /\ (risk_score text = 0.0 <->
      ~ Str.Occurs RISK_KEYWORDS (lower text)
      /\ ~ Str.Occurs NEGATIVE_KEYWORDS (lower text)).
Proof.
  rewrite <- !any_in_iff, risk_score_cases, negative_keywords_split.
  pose proof (worthless_is_risk (lower text)) as Hw.
  destruct (Str.any_in RISK_KEYWORDS _),
           (Str.isin "worthless" _),
           (Str.any_in ["hopeless"; "hate myself"; "can't go on"] _);
    cbn [orb];
    intuition (try discriminate; try congruence).
Qed.

(** Among texts of ASCII characters, embedding a text in a longer one
    never lowers its score and keeps the label joy, and a text inside a
    text that is classified neutral is neutral itself. *)
Theorem embedding_keeps_risk (pre text post : string) :
  Str.is_ascii (pre ++ text ++ post) = true ->
  risk_score text <= risk_score (pre ++ text ++ post)
  /\ (classify_emotion text = "joy" ->
      classify_emotion (pre ++ text ++ post) = "joy")
  /\ (classify_emotion (pre ++ text ++ post) = "neutral" ->
      classify_emotion text = "neutral").
Proof.
  intros Hascii.
  pose proof (any_in_embed RISK_KEYWORDS text pre post Hascii) as HR.
  pose proof (any_in_embed NEGATIVE_KEYWORDS text pre post Hascii) as HN.
  pose proof (any_in_embed JOY_KEYWORDS text pre post Hascii) as HJ.
  pose proof (any_in_embed SADNESS_KEYWORDS text pre post Hascii) as HS.
  pose proof (any_in_embed ANGER_KEYWORDS text pre post Hascii) as HA.
  pose proof (any_in_embed ANXIETY_KEYWORDS text pre post Hascii) as HX.
  split; [|split].
  - rewrite !risk_score_cases.
    destruct (Str.any_in RISK_KEYWORDS (lower text));
      [rewrite HR by reflexivity; q_eval|].
    destruct (Str.any_in NEGATIVE_KEYWORDS (lower text));
      [rewrite HN by reflexivity|];
      destruct (Str.any_in RISK_KEYWORDS _);
      try destruct (Str.any_in NEGATIVE_KEYWORDS _); q_eval.
  - unfold classify_emotion.
    destruct (Str.any_in JOY_KEYWORDS (lower text));
      [now rewrite HJ|].
    destruct (Str.any_in SADNESS_KEYWORDS (lower text)); [discriminate|].
    destruct (Str.any_in ANGER_KEYWORDS (lower text)); [discriminate|].
    destruct (Str.any_in ANXIETY_KEYWORDS (lower text)); discriminate.
  - unfold classify_emotion.
    destruct (Str.any_in JOY_KEYWORDS (lower text));
      [rewrite HJ by reflexivity; discriminate|].
    destruct (Str.any_in SADNESS_KEYWORDS (lower text));
      [rewrite HS by reflexivity;
       destruct (Str.any_in JOY_KEYWORDS _); discriminate|].
    destruct (Str.any_in ANGER_KEYWORDS (lower text));
      [rewrite HA by reflexivity;
       destruct (Str.any_in JOY_KEYWORDS _), (Str.any_in SADNESS_KEYWORDS _);
       discriminate|].
    destruct (Str.any_in ANXIETY_KEYWORDS (lower text));
      [rewrite HX by reflexivity;
       destruct (Str.any_in JOY_KEYWORDS _), (Str.any_in SADNESS_KEYWORDS _),
         (Str.any_in ANGER_KEYWORDS _); discriminate|].
    reflexivity.
Qed.

(** ** The handler, further *)

(** Every outcome of a turn: what was written is a front part of the
    risk event of the tier followed by the message, and the turn raised
    at the first entry that was not written. *)
Lemma chat_from_outcome
  (db : store -> string -> document -> bool) (now : Z) (req : ChatRequest)
  (e : string) (sc : Q) (s s' : store) (r : result ChatResponse) :
  chat_from db now req e sc s = (r, s') ->
  exists written rest : store,
    s' = (s ++ written)%list
    /\ (tier_events now req sc
          ++ [message_entry req e sc (tier_reply e sc)])%list
       = (written ++ rest)%list
    /\ match r with
       | Returned resp =>
           rest = [] /\ resp = mkChatResponse (tier_reply e sc) e sc
       | Raised x =>
           exists c d rest',
             rest = ((c, d) :: rest')%list /\ x = PersistenceError c
       end.
Proof.
  rewrite chat_from_run; unfold bind at 1.
  destruct (persist_all db _ s) as [[u|x] s1] eqn:Hp.
  - unfold ret; intros [= <- <-].
    apply persist_all_returned in Hp as ->.
    exists (tier_events now req sc
              ++ [message_entry req e sc (tier_reply e sc)])%list, [].
    rewrite app_nil_r; repeat split.
  - intros [= <- <-].
    apply persist_all_raised in Hp as (done & rest & c & d & -> & -> & -> & _).
    exists done, ((c, d) :: rest)%list; repeat split.
    now exists c, d, rest.
Qed.

(** The two shapes of the entries of a turn. *)
Lemma turn_entries (now : Z) (req : ChatRequest) (e : string) (sc : Q) :
  (escalation_tier sc = tier_none
   /\ tier_events now req sc = [])
  \/ (escalation_tier sc <> tier_none
      /\ exists level reason,
          tier_events now req sc = [risk_event now req level reason sc]
          /\ (level = "high" \/ level = "medium")).
Proof.
  unfold tier_events; destruct (escalation_tier sc).
  - right; split; [discriminate|]; exists "high", "Text trigger keyword"; auto.
  - right; split; [discriminate|]; exists "medium", "Negative self-talk"; auto.
  - left; split; reflexivity.
Qed.

(** A turn that fails was stopped by a write that the collaborator
    refused, never by a missing key of [EMOJI_RESPONSES].  Either the
    risk event was refused and nothing was stored, or the message was
    refused, once the risk event of the tier, if any, was stored: a
    failed turn stores no message, and it can leave a risk event
    without its message. *)
Theorem failed_turn_writes
  (db : store -> string -> document -> bool) (now : Z) (req : ChatRequest)
  (s s' : store) (x : exn) :
  chat db now req s = (Raised x, s') ->
  (x = PersistenceError "riskevent" /\ s' = s
   /\ escalation_tier (risk_score (text req)) <> tier_none)
  \/ (x = PersistenceError "message"
      /\ s' = (s ++ tier_events now req (risk_score (text req)))%list
      /\ collection "message" s' = collection "message" s).
Proof.
  unfold chat; intros H.
  apply chat_from_outcome in H
    as (written & rest & -> & Hsplit & c & d & rest' & -> & ->).
  destruct (turn_entries now req (classify_emotion (text req))
              (risk_score (text req)))
    as [[_ Hev]|[Hne (level & reason & Hev & _)]];
    rewrite Hev in Hsplit |- *; cbn [app] in Hsplit.
  - destruct written as [|w written]; cbn [app] in Hsplit.
    + right; injection Hsplit as <- _.
      rewrite !app_nil_r; repeat split.
    + injection Hsplit as _ Hnil; destruct written; discriminate.
  - destruct written as [|w [|w' written]]; cbn [app] in Hsplit.
    + left; injection Hsplit as <- _.
      rewrite app_nil_r; repeat split; exact Hne.
    + right; injection Hsplit as <- <- _.
      repeat split.
      unfold collection; rewrite filter_app, map_app; cbn.
      now rewrite app_nil_r.
    + injection Hsplit as _ _ Hnil; destruct written; discriminate.
Qed.

Lemma turn_entries_valid (now : Z) (req : ChatRequest) :
  let e := classify_emotion (text req) in
  let sc := risk_score (text req) in
  Forall (fun entry =>
            schema_valid entry = true
            /\ dict_lookup (snd entry) "child_id"
               = Some (VStr (child_id req)))
    (tier_events now req sc ++ [message_entry req e sc (tier_reply e sc)])%list.
Proof.
  cbv zeta; generalize (classify_emotion (text req)) as e; intros e.
  rewrite risk_score_cases.
  destruct (Str.any_in RISK_KEYWORDS _);
    [|destruct (Str.any_in NEGATIVE_KEYWORDS _)];
    repeat constructor.
Qed.

(** Whatever the outcome of a turn, returned or failed, each document
    that it stored fits the model that [schemas.py] declares for its
    collection ([RiskEvent] for "riskevent", [Message] for "message"),
    bounds of the score included, and carries the [child_id] of the
    request. *)
Theorem chat_writes_valid_documents
  (db : store -> string -> document -> bool) (now : Z) (req : ChatRequest)
  (s s' : store) (r : result ChatResponse) :
  chat db now req s = (r, s') ->
  exists written : store,
    s' = (s ++ written)%list
    /\ Forall (fun entry =>
                 schema_valid entry = true
                 /\ dict_lookup (snd entry) "child_id"
                    = Some (VStr (child_id req)))
         written.
Proof.
  unfold chat; intros H.
  apply chat_from_outcome in H as (written & rest & -> & Hsplit & _).
  exists written; split; [reflexivity|].
  pose proof (turn_entries_valid now req) as Hall; cbv zeta in Hall.
  rewrite Hsplit in Hall; now apply Forall_app in Hall.
Qed.

(** The fallback of [EMOJI_RESPONSES.get] is for labels outside the
    table only: every label that [classify_emotion] returns is a key of
    [EMOJI_RESPONSES], so the base reply of a turn is the entry of its
    own label, and a label that is not a key gets the neutral reply. *)
Theorem base_reply_lookup :
  (forall text : string,
      dict_lookup EMOJI_RESPONSES (classify_emotion text)
      = Some (base_reply_for (classify_emotion text)))
  /\ (forall label : string,
        dict_lookup EMOJI_RESPONSES label = None ->
        base_reply_for label = "I’m listening. Tell me more.")
  /\ (forall label : string,
        dict_lookup EMOJI_RESPONSES label = None <->
        ~ In label EMOTION_LABELS).
Proof.
  split; [|split].
  - intros text; unfold classify_emotion.
    destruct (Str.any_in JOY_KEYWORDS _); [reflexivity|].
    destruct (Str.any_in SADNESS_KEYWORDS _); [reflexivity|].
    destruct (Str.any_in ANGER_KEYWORDS _); [reflexivity|].
    destruct (Str.any_in ANXIETY_KEYWORDS _); reflexivity.
  - intros label H; unfold base_reply_for, dict_get; now rewrite H.
  - intros label; unfold EMOJI_RESPONSES, EMOTION_LABELS;
      cbn [dict_lookup In].
    repeat match goal with
           | |- context [String.eqb ?a label] =>
               destruct (String.eqb_spec a label) as [<-|?]
           end;
      split; intros H; try discriminate; try reflexivity;
      try (elim H; tauto); intuition congruence.
Qed.

(** ** From the keywords to the risk event *)

(** End to end, for a turn that returns: it stores a risk event of
    level "high" exactly when a keyword of [RISK_KEYWORDS] occurs in the
    lowercased text, one of level "medium" exactly when none of those
    occurs and a keyword of the second list does, and no risk event
    exactly when no keyword of either list occurs. *)
Theorem risk_event_iff_keyword
  (db : store -> string -> document -> bool) (now : Z) (req : ChatRequest)
  (s s' : store) (resp : ChatResponse) :
  chat db now req s = (Returned resp, s') ->
  exists written : store,
    s' = (s ++ written)%list
    /\ let levels :=
         map (fun d => dict_lookup d "level")
           (collection "riskevent" written) in
       let t := lower (text req) in
       (levels = [Some (VStr "high")] <-> Str.Occurs RISK_KEYWORDS t)
       /\ (levels = [Some (VStr "medium")] <->
           ~ Str.Occurs RISK_KEYWORDS t /\ Str.Occurs NEGATIVE_KEYWORDS t)
       /\ (levels = [] <->
           ~ Str.Occurs RISK_KEYWORDS t /\ ~ Str.Occurs NEGATIVE_KEYWORDS t).
Proof.
  unfold chat; intros H; apply chat_from_returned in H as [_ ->].
  eexists; split; [reflexivity|]; cbv zeta.
  rewrite risk_events_written by exact now.
  rewrite tier_events_levels, risk_score_cases.
  rewrite <- !any_in_iff.
  destruct (Str.any_in RISK_KEYWORDS _), (Str.any_in NEGATIVE_KEYWORDS _);
    cbn; intuition (try discriminate; try congruence).
Qed.

End Pipeline.

(** ** The statements with a premise, at concrete inputs *)

Lemma escalation_tier_thresholds_witness :
  map (fun d => dict_lookup d "level")
    (collection "riskevent"
       (snd (chat_from db_available 0 (mkChatRequest "c1" "hi") "neutral"
               0.6 [])))
  = [Some (VStr "medium")]
  /\ map (fun d => dict_lookup d "level")
       (collection "riskevent"
          (snd (chat_from db_available 0 (mkChatRequest "c1" "hi") "neutral"
                  0.85 [])))
     = [Some (VStr "high")].
Proof.
  pose (req := mkChatRequest "c1" "hi").
  pose (base := base_reply_for "neutral").
  pose (hard := HARD_WORDS_PREFIX ++ base ++ NEED_HELP_SUFFIX).
  assert (Hmedium : chat_from db_available 0 req "neutral" 0.6 [] =
                    (Returned (mkChatResponse hard "neutral" 0.6),
                     [risk_event 0 req "medium" "Negative self-talk" 0.6;
                      message_entry req "neutral" 0.6 hard]))
    by (vm_compute; reflexivity).
  assert (Hhigh : chat_from db_available 0 req "neutral" 0.85 [] =
                  (Returned (mkChatResponse CRISIS_REPLY "neutral" 0.85),
                   [risk_event 0 req "high" "Text trigger keyword" 0.85;
                    message_entry req "neutral" 0.85 CRISIS_REPLY]))
    by (vm_compute; reflexivity).
  destruct (escalation_tier_thresholds _ _ _ _ _ _ _ _ Hmedium)
    as (wm & Hwm & _ & Hm & _).
  destruct (escalation_tier_thresholds _ _ _ _ _ _ _ _ Hhigh)
    as (wh & Hwh & Hh & _).
  fold req; rewrite Hmedium, Hhigh; cbn [snd].
  cbn [app] in Hwm, Hwh; rewrite Hwm, Hwh.
  split; [apply Hm | apply Hh]; unfold Qle, Qlt; simpl; lia.
Defined.

Lemma risk_score_floors_witness :
  0.85 <= risk_score ascii_only "I want to DIE" /\ 0.6 <= risk_score ascii_only "I hate myself".
Proof.
  split.
  - apply (proj1 (risk_score_floors ascii_only "I want to DIE")).
    exists "die"; split; [simpl; tauto|].
    exists "i want to ", ""; reflexivity.
  - apply (proj1 (proj2 (risk_score_floors ascii_only "I hate myself"))).
    exists "hate myself"; split; [simpl; tauto|].
    exists "i ", ""; reflexivity.
Defined.

Lemma classify_and_score_default_witness :
  classify_emotion ascii_only "Hello there" = "neutral"
  /\ risk_score ascii_only "Hello there" = 0.0.
Proof.
  destruct (classify_and_score_default ascii_only) as (_ & _ & H).
  destruct (H "Hello there") as (_ & Hc & Hs).
  split; [apply Hc | apply Hs];
    apply any_in_false_iff; reflexivity.
Defined.

Lemma risk_event_per_tier_witness :
  exists written : store,
    snd (chat ascii_only db_available 17 (mkChatRequest "c1" "I want to die") [])
    = written
    /\ exists d : document,
        collection "riskevent" written = [d]
        /\ dict_lookup d "level" = Some (VStr "high")
        /\ dict_lookup d "reason" = Some (VStr "Text trigger keyword").
Proof.
  pose (req := mkChatRequest "c1" "I want to die").
  assert (Hrun : chat ascii_only db_available 17 req [] =
                 (Returned (mkChatResponse CRISIS_REPLY "neutral" 0.85),
                  [risk_event 17 req "high" "Text trigger keyword" 0.85;
                   message_entry req "neutral" 0.85 CRISIS_REPLY]))
    by (vm_compute; reflexivity).
  destruct (risk_event_per_tier _ _ _ _ _ _ _ Hrun) as (written & Hw & H).
  exists written; split; [exact Hw | exact (proj1 H)].
Defined.

Lemma reply_shape_per_tier_witness :
  response_of (chat_from db_available 0 (mkChatRequest "c1" "hi") "anxiety" 0.0 [])
  = Some "It’s okay to feel worried. Let's try box breathing: 4-in, 4-hold, 4-out, 4-hold."
  /\ response_of (chat_from db_available 0 (mkChatRequest "c1" "hi") "anxiety" 0.9 [])
     = Some CRISIS_REPLY
  /\ response_of (chat_from db_available 0 (mkChatRequest "c1" "hi") "anxiety" 0.6 [])
     = Some ("I’m noticing words that sound really hard. "
             ++ "It’s okay to feel worried. Let's try box breathing: 4-in, 4-hold, 4-out, 4-hold."
             ++ " You can also press ‘I need help’ to contact a trusted adult.").
Proof.
  pose (req := mkChatRequest "c1" "hi").
  pose (base := base_reply_for "anxiety").
  pose (hard := HARD_WORDS_PREFIX ++ base ++ NEED_HELP_SUFFIX).
  assert (Hnone : chat_from db_available 0 req "anxiety" 0.0 [] =
                  (Returned (mkChatResponse base "anxiety" 0.0),
                   [message_entry req "anxiety" 0.0 base]))
    by (vm_compute; reflexivity).
  assert (Hhigh : chat_from db_available 0 req "anxiety" 0.9 [] =
                  (Returned (mkChatResponse CRISIS_REPLY "anxiety" 0.9),
                   [risk_event 0 req "high" "Text trigger keyword" 0.9;
                    message_entry req "anxiety" 0.9 CRISIS_REPLY]))
    by (vm_compute; reflexivity).
  assert (Hmedium : chat_from db_available 0 req "anxiety" 0.6 [] =
                    (Returned (mkChatResponse hard "anxiety" 0.6),
                     [risk_event 0 req "medium" "Negative self-talk" 0.6;
                      message_entry req "anxiety" 0.6 hard]))
    by (vm_compute; reflexivity).
  fold req; rewrite Hnone, Hhigh, Hmedium; unfold response_of, fst.
  split; [|split]; apply (f_equal Some).
  - exact (reply_shape_per_tier _ _ _ _ _ _ _ _ Hnone).
  - exact (proj1 (reply_shape_per_tier _ _ _ _ _ _ _ _ Hhigh)).
  - exact (reply_shape_per_tier _ _ _ _ _ _ _ _ Hmedium).
Defined.

Lemma risk_event_score_is_message_score_witness :
  exists written : store,
    snd (chat ascii_only db_available 17 (mkChatRequest "c1" "I feel hopeless") [])
    = written
    /\ (forall d : document,
          In d (collection "riskevent" written) ->
          dict_lookup d "score" = Some (VFloat 0.6))
    /\ (exists m : document,
          collection "message" written = [m]
          /\ dict_lookup m "risk_score" = Some (VFloat 0.6)).
Proof.
  pose (req := mkChatRequest "c1" "I feel hopeless").
  pose (reply := HARD_WORDS_PREFIX ++ base_reply_for "neutral"
                 ++ NEED_HELP_SUFFIX).
  assert (Hrun : chat ascii_only db_available 17 req [] =
                 (Returned (mkChatResponse reply "neutral" 0.6),
                  [risk_event 17 req "medium" "Negative self-talk" 0.6;
                   message_entry req "neutral" 0.6 reply]))
    by (vm_compute; reflexivity).
  destruct (risk_event_score_is_message_score _ _ _ _ _ _ _ Hrun)
    as (written & Hw & Hd & Hm & _).
  exists written; split; [exact Hw | split; [exact Hd | exact Hm]].
Defined.

Lemma message_recorded_in_every_tier_witness :
  exists (resp : ChatResponse) (s' : store),
    chat ascii_only db_available 17 (mkChatRequest "c1" "I'm happy today") []
    = (Returned resp, s').
Proof.
  apply (proj1 (proj2 (message_recorded_in_every_tier
                         ascii_only db_available 17
                         (mkChatRequest "c1" "I'm happy today") []))).
  intros s0 c d; reflexivity.
Defined.

Lemma embedding_keeps_risk_witness :
  classify_emotion ascii_only ("well, " ++ "I feel GREAT" ++ " but sad")
  = "joy"
  /\ classify_emotion ascii_only "so" = "neutral".
Proof.
  split.
  - apply (proj1 (proj2 (embedding_keeps_risk ascii_only
                           "well, " "I feel GREAT" " but sad" eq_refl)));
      reflexivity.
  - apply (proj2 (proj2 (embedding_keeps_risk ascii_only
                           "is " "so" " it" eq_refl)));
      reflexivity.
Defined.

Lemma failed_turn_writes_witness :
  chat ascii_only (db_without "message") 17 (mkChatRequest "c1" "I want to die") []
  = (Raised (PersistenceError "message"),
     [risk_event 17 (mkChatRequest "c1" "I want to die") "high"
        "Text trigger keyword" 0.85])
  /\ collection "message"
       [risk_event 17 (mkChatRequest "c1" "I want to die") "high"
          "Text trigger keyword" 0.85] = [].
Proof.
  pose (req := mkChatRequest "c1" "I want to die").
  assert (Hrun : chat ascii_only (db_without "message") 17 req [] =
                 (Raised (PersistenceError "message"),
                  [risk_event 17 req "high" "Text trigger keyword" 0.85]))
    by (vm_compute; reflexivity).
  split; [exact Hrun|].
  destruct (failed_turn_writes _ _ _ _ _ _ _ Hrun) as [(Hx & _)|(_ & _ & Hc)];
    [discriminate Hx | exact Hc].
Defined.

Lemma chat_writes_valid_documents_witness :
  exists written : store,
    [risk_event 17 (mkChatRequest "c1" "I feel hopeless") "medium"
       "Negative self-talk" 0.6] = written
    /\ Forall (fun entry =>
                 schema_valid entry = true
                 /\ dict_lookup (snd entry) "child_id" = Some (VStr "c1"))
         written.
Proof.
  pose (req := mkChatRequest "c1" "I feel hopeless").
  assert (Hrun : chat ascii_only (db_without "message") 17 req [] =
                 (Raised (PersistenceError "message"),
                  [risk_event 17 req "medium" "Negative self-talk" 0.6]))
    by (vm_compute; reflexivity).
  destruct (chat_writes_valid_documents _ _ _ _ _ _ _ Hrun)
    as (written & Hw & Hall).
  exists written; split; [exact Hw | exact Hall].
Defined.

Lemma base_reply_lookup_witness :
  base_reply_for "surprise" = "I’m listening. Tell me more.".
Proof.
  apply (proj1 (proj2 (base_reply_lookup ascii_only))); reflexivity.
Defined.

Lemma risk_event_iff_keyword_witness :
  Str.Occurs RISK_KEYWORDS (lower ascii_only "There is no reason to live").
Proof.
  pose (req := mkChatRequest "c1" "There is no reason to live").
  assert (Hrun : chat ascii_only db_available 17 req [] =
                 (Returned (mkChatResponse CRISIS_REPLY "neutral" 0.85),
                  [risk_event 17 req "high" "Text trigger keyword" 0.85;
                   message_entry req "neutral" 0.85 CRISIS_REPLY]))
    by (vm_compute; reflexivity).
  destruct (risk_event_iff_keyword _ _ _ _ _ _ _ Hrun)
    as (written & Hw & Hhigh & _).
  cbn [app] in Hw; subst written.
  apply (proj1 Hhigh); reflexivity.
Defined.

(** ** The status report of [/test] *)

Lemma take_chars_spec (s : string) (n : nat) :
  exists rest : string,
    s = Str.take_chars n s ++ rest
    /\ (Str.char_count (Str.take_chars n s) <= n)%nat
    /\ (rest <> "" -> Str.char_count (Str.take_chars n s) = n).
Proof.
  revert n; induction s as [|c s IH]; intros n; cbn [Str.take_chars].
  - exists ""; repeat split; [simpl; lia | intros H; now elim H].
  - destruct (Str.is_continuation c) eqn:Hc.
    + destruct (IH n) as (rest & Hs & Hle & Hfull).
      exists rest; cbn [append Str.char_count]; rewrite Hc, <- Hs.
      repeat split; assumption.
    + destruct n as [|n].
      * exists (String c s); repeat split; simpl; lia.
      * destruct (IH n) as (rest & Hs & Hle & Hfull).
        exists rest; cbn [append Str.char_count]; rewrite Hc, <- Hs.
        repeat split; [lia | intros H; rewrite (Hfull H); reflexivity].
Qed.

Lemma take_chars_all (s : string) (n : nat) :
  (Str.char_count s <= n)%nat -> Str.take_chars n s = s.
Proof.
  revert n; induction s as [|c s IH]; intros n; cbn; [reflexivity|].
  destruct (Str.is_continuation c); cbn.
  - intros H; now rewrite IH.
  - destruct n as [|n]; [lia|]; intros H; rewrite IH; [reflexivity | lia].
Qed.

(** The fields [database_url] and [database_name] of the report tell
    whether the environment variables [DATABASE_URL] and
    [DATABASE_NAME] are set to a non-empty string, and nothing else:
    what the function first stores there from the database, its name
    among it, never reaches the caller. *)
Theorem test_database_env_fields
  (db : option Database) (getenv : string -> option string) :
  dict_lookup (test_database db getenv) "database_url"
  = Some (JStr match getenv "DATABASE_URL" with
               | Some v => if String.eqb v "" then "❌ Not Set" else "✅ Set"
               | None => "❌ Not Set"
               end)
  /\ dict_lookup (test_database db getenv) "database_name"
     = Some (JStr match getenv "DATABASE_NAME" with
                  | Some v => if String.eqb v "" then "❌ Not Set" else "✅ Set"
                  | None => "❌ Not Set"
                  end).
Proof.
  unfold test_database, truthy.
  destruct db as [[[|v|msg] [cs|msg']]|];
    destruct (getenv "DATABASE_URL") as [u|];
    destruct (getenv "DATABASE_NAME") as [n|];
    try destruct (String.eqb u ""); try destruct (String.eqb n "");
    split; reflexivity.
Qed.

(** The report lists the first ten collections that the database
    names, when there is a database object, reading its name does not
    raise and the listing succeeds, and no collection in every other
    case; so it never lists more than ten, and it lists one only under
    the status "Connected & Working". *)
Theorem test_database_collections
  (db : option Database) (getenv : string -> option string) :
  exists l : list string,
    dict_lookup (test_database db getenv) "collections" = Some (JList l)
    /\ l = match db with
           | Some d =>
               match db_name d, list_collection_names d with
               | AttributeRaises _, _ => []
               | _, Done cs => firstn 10 cs
               | _, Failed _ => []
               end
           | None => []
           end
    /\ (length l <= 10)%nat
    /\ (l <> [] ->
        dict_lookup (test_database db getenv) "database"
        = Some (JStr "✅ Connected & Working")).
Proof.
  unfold test_database.
  destruct db as [[[|v|msg] [cs|msg']]|]; cbn [db_name list_collection_names];
    eexists; (split; [reflexivity|]); (split; [reflexivity|]);
    (split; [first [apply firstn_le_length | simpl; lia]|]);
    first [reflexivity | intros H; now elim H].
Qed.

(** Whatever the database does, the report has the same six keys in the
    same order, and says that the backend is running. *)
Theorem test_database_keys
  (db : option Database) (getenv : string -> option string) :
  map fst (test_database db getenv)
  = ["backend"; "database"; "database_url"; "database_name";
     "connection_status"; "collections"]
  /\ dict_lookup (test_database db getenv) "backend" = Some (JStr "✅ Running").
Proof.
  unfold test_database.
  destruct db as [[[|v|msg] [cs|msg']]|]; split; reflexivity.
Qed.

(** The report says "Connected" exactly when there is a database object
    and reading its [name] does not raise, a database object without a
    [name] attribute included, and "Not Connected" otherwise; it says
    "Connected & Working" exactly when, besides, the listing of the
    collections succeeded. *)
Theorem test_database_status
  (db : option Database) (getenv : string -> option string) :
  let connected :=
    exists d : Database,
      db = Some d /\ forall msg, db_name d <> AttributeRaises msg in
  (dict_lookup (test_database db getenv) "connection_status"
   = Some (JStr "Connected") <-> connected)
  /\ (dict_lookup (test_database db getenv) "connection_status"
      = Some (JStr "Not Connected") <-> ~ connected)
  /\ (dict_lookup (test_database db getenv) "database"
      = Some (JStr "✅ Connected & Working") <->
      exists (d : Database) (cs : list string),
        db = Some d /\ (forall msg, db_name d <> AttributeRaises msg)
        /\ list_collection_names d = Done cs).
Proof.
  unfold test_database.
  destruct db as [[[|v|msg] [cs|msg']]|]; cbn;
    (split; [|split]); split;
    try discriminate; try reflexivity;
    try (intros _; eexists; split; [reflexivity | discriminate]);
    try (intros _; eexists; eexists; split;
         [reflexivity | split; [discriminate | reflexivity]]);
    try (intros (d & [= <-] & H); now elim (H msg));
    try (intros (d & H & _); discriminate H);
    try (intros (d & cs' & [= <-] & H & H'); cbn in H';
         first [discriminate H' | now elim (H msg)]);
    try (intros (d & cs' & H & _); discriminate H);
    try (intros H; elim H; eexists; split; [reflexivity | discriminate]);
    try (intros _ (d & [= <-] & H); now elim (H msg));
    try (intros _ (d & H & _); discriminate H).
Qed.

(** When the listing of the collections raises, the report still says
    "Connected", and its [database] field is a fixed marker followed by
    the first 50 characters of the error message: the whole message
    when it has 50 characters or fewer, and otherwise exactly 50 of
    them, the rest being cut.  The same holds with another marker, and
    "Not Connected", when reading the name of the database raises. *)
Theorem test_database_error_text
  (d : Database) (getenv : string -> option string) (msg : string) :
  ((forall m, db_name d <> AttributeRaises m) ->
   list_collection_names d = Failed msg ->
   dict_lookup (test_database (Some d) getenv) "database"
   = Some (JStr ("⚠️  Connected but Error: " ++ first50 msg))
   /\ dict_lookup (test_database (Some d) getenv) "connection_status"
      = Some (JStr "Connected"))
  /\ (db_name d = AttributeRaises msg ->
      dict_lookup (test_database (Some d) getenv) "database"
      = Some (JStr ("❌ Error: " ++ first50 msg))
      /\ dict_lookup (test_database (Some d) getenv) "connection_status"
         = Some (JStr "Not Connected"))
  /\ (exists rest : string,
        msg = first50 msg ++ rest
        /\ (Str.char_count (first50 msg) <= 50)%nat
        /\ (rest <> "" -> Str.char_count (first50 msg) = 50%nat))
  /\ ((Str.char_count msg <= 50)%nat -> first50 msg = msg).
Proof.
  unfold test_database; destruct d as [[|v|m0] [cs|m1]];
    cbn [db_name list_collection_names];
    (split; [|split; [|split; [apply take_chars_spec
                              | apply take_chars_all]]]);
    try (intros _ [= <-]; split; reflexivity);
    try (intros [= <-]; split; reflexivity);
    try discriminate;
    try (intros _ H; discriminate H);
    intros H; now elim (H m0).
Qed.

Lemma test_database_error_text_witness :
  dict_lookup
    (test_database
       (Some (mkDatabase NoAttribute
                (Failed "éééééééééééééééééééééééééééééé")))
       (fun _ => None)) "database"
  = Some (JStr ("⚠️  Connected but Error: "
                ++ "éééééééééééééééééééééééééééééé")).
Proof.
  pose (msg := "éééééééééééééééééééééééééééééé").
  destruct (test_database_error_text (mkDatabase NoAttribute (Failed msg))
              (fun _ => None) msg) as (H1 & _ & _ & H4).
  destruct H1 as [H1 _]; [discriminate | reflexivity |].
  rewrite H4 in H1 by (vm_compute; lia).
  exact H1.
Defined.

(** ** The listings of [/api/messages] and [/api/risk-events] *)

Section DictSet.

Context {V : Type}.

Lemma dict_lookup_set_eq (d : list (string * V)) (k : string) (v : V) :
  dict_lookup (dict_set d k v) k = Some v.
Proof.
  induction d as [|[k' v'] d IH]; simpl.
  - now rewrite String.eqb_refl.
  - destruct (String.eqb k' k) eqn:E; simpl; now rewrite E.
Qed.

Lemma dict_lookup_set_neq (d : list (string * V)) (k k' : string) (v : V) :
  k' <> k -> dict_lookup (dict_set d k v) k' = dict_lookup d k'.
Proof.
  intros Hne; induction d as [|[k0 v0] d IH]; simpl.
  - destruct (String.eqb_spec k k'); [now elim Hne | reflexivity].
  - destruct (String.eqb_spec k0 k) as [->|Hk]; simpl.
    + destruct (String.eqb_spec k k'); [now elim Hne | reflexivity].
    + now rewrite IH.
Qed.

Lemma dict_set_same (d : list (string * V)) (k : string) (v : V) :
  dict_lookup d k = Some v -> dict_set d k v = d.
Proof.
  induction d as [|[k0 v0] d IH]; simpl; [discriminate|].
  destruct (String.eqb k0 k); [now intros [= ->] | intros H; now rewrite IH].
Qed.

Lemma dict_get_set_neq (d : list (string * V)) (k k' : string)
  (v default : V) :
  k' <> k -> dict_get (dict_set d k v) k' default = dict_get d k' default.
Proof. intros H; unfold dict_get; now rewrite dict_lookup_set_neq. Qed.

Lemma dict_get_lookup (d : list (string * V)) (k : string) (default : V) :
  dict_get d k default
  = match dict_lookup d k with Some v => v | None => default end.
Proof. reflexivity. Qed.

End DictSet.

Section Serialise.

Variables (float_str : Q -> string) (datetime_str isoformat : Z -> string).
Variable key : string.
Hypothesis key_not_id : key <> "_id".

(** The body of the loop of the two listings, [key] being "created_at"
    in one and "occurred_at" in the other. *)
Let body (d : sdoc) : sdoc :=
  let d :=
    dict_set d "_id"
      (SStr (py_str float_str datetime_str (dict_get d "_id" SNone))) in
  match dict_get d key SNone with
  | SDatetime t => dict_set d key (SStr (isoformat t))
  | _ => d
  end.

Lemma body_lookup (d : sdoc) :
  dict_lookup (body d) "_id"
  = Some (SStr (py_str float_str datetime_str (dict_get d "_id" SNone)))
  /\ dict_lookup (body d) key
     = match dict_lookup d key with
       | Some (SDatetime t) => Some (SStr (isoformat t))
       | other => other
       end
  /\ forall k : string,
      k <> "_id" -> k <> key -> dict_lookup (body d) k = dict_lookup d k.
Proof.
  unfold body; cbv zeta.
  rewrite dict_get_set_neq by exact key_not_id.
  rewrite (dict_get_lookup d key).
  destruct (dict_lookup d key) as [[| | |t|]|] eqn:Hk;
    repeat split;
    rewrite ?dict_lookup_set_eq, ?dict_lookup_set_neq, ?dict_lookup_set_eq
      by congruence;
    try reflexivity; try assumption;
    intros k H1 H2;
    rewrite ?dict_lookup_set_neq by congruence; reflexivity.
Qed.

Lemma body_idem (d : sdoc) : body (body d) = body d.
Proof.
  destruct (body_lookup d) as (Hid & Hkey & _).
  unfold body at 1; cbv zeta.
  rewrite (dict_get_lookup (body d) "_id"), Hid; cbn [py_str].
  rewrite (dict_set_same _ _ _ Hid).
  rewrite (dict_get_lookup (body d) key), Hkey.
  destruct (dict_lookup d key) as [[| | |t|]|]; reflexivity.
Qed.

Lemma body_all (docs : list sdoc) :
  Forall2
    (fun d item =>
       dict_lookup item "_id"
       = Some (SStr (py_str float_str datetime_str (dict_get d "_id" SNone)))
       /\ dict_lookup item key
          = match dict_lookup d key with
            | Some (SDatetime t) => Some (SStr (isoformat t))
            | other => other
            end
       /\ forall k : string,
           k <> "_id" -> k <> key -> dict_lookup item k = dict_lookup d k)
    docs (map body docs).
Proof.
  induction docs as [|d docs IH]; constructor;
    [apply body_lookup | exact IH].
Qed.

End Serialise.

Section ListingFacts.

Variable get_documents : string -> sdoc -> Z -> result (list sdoc).
Variables (float_str : Q -> string) (datetime_str isoformat : Z -> string).

(** [list_messages] asks the store for the documents of collection
    "message" whose [child_id] is the given one, and hands a failure of
    the store on.  It returns as many items as the store gave, in the
    same order; in each item [_id] is the string form of the [_id] of
    the document ("None" when the document has none), a datetime under
    [created_at] is replaced by its ISO text, and every other field,
    [occurred_at] among them, is as the store gave it. *)
Theorem list_messages_items (child_id : string) (limit : Z) :
  match get_documents "message" [("child_id", SStr child_id)] limit with
  | Raised e =>
      list_messages get_documents float_str datetime_str isoformat
        child_id limit = Raised e
  | Returned docs =>
      exists items : list sdoc,
        list_messages get_documents float_str datetime_str isoformat
          child_id limit = Returned items
        /\ Forall2
             (fun d item =>
                dict_lookup item "_id"
                = Some (SStr (py_str float_str datetime_str
                                (dict_get d "_id" SNone)))
                /\ dict_lookup item "created_at"
                   = match dict_lookup d "created_at" with
                     | Some (SDatetime t) => Some (SStr (isoformat t))
                     | other => other
                     end
                /\ forall k : string,
                    k <> "_id" -> k <> "created_at" ->
                    dict_lookup item k = dict_lookup d k)
             docs items
  end.
Proof.
  unfold list_messages.
  destruct (get_documents "message" _ limit) as [docs|e]; [|reflexivity].
  eexists; split; [reflexivity|].
  apply (body_all float_str datetime_str isoformat "created_at");
    discriminate.
Qed.

(** [list_risk] does the same on collection "riskevent", with
    [occurred_at] in the place of [created_at]: a datetime under
    [created_at] is left as it is. *)
Theorem list_risk_items (child_id : string) (limit : Z) :
  match get_documents "riskevent" [("child_id", SStr child_id)] limit with
  | Raised e =>
      list_risk get_documents float_str datetime_str isoformat
        child_id limit = Raised e
  | Returned docs =>
      exists items : list sdoc,
        list_risk get_documents float_str datetime_str isoformat
          child_id limit = Returned items
        /\ Forall2
             (fun d item =>
                dict_lookup item "_id"
                = Some (SStr (py_str float_str datetime_str
                                (dict_get d "_id" SNone)))
                /\ dict_lookup item "occurred_at"
                   = match dict_lookup d "occurred_at" with
                     | Some (SDatetime t) => Some (SStr (isoformat t))
                     | other => other
                     end
                /\ forall k : string,
                    k <> "_id" -> k <> "occurred_at" ->
                    dict_lookup item k = dict_lookup d k)
             docs items
  end.
Proof.
  unfold list_risk.
  destruct (get_documents "riskevent" _ limit) as [docs|e]; [|reflexivity].
  eexists; split; [reflexivity|].
  apply (body_all float_str datetime_str isoformat "occurred_at");
    discriminate.
Qed.

(** The conversion of the two listings is idempotent: items that a
    listing returned come out unchanged when they go through either
    loop again.  So a document that the store returns twice in one
    answer, and that the loop therefore converts twice, ends as it
    would after one conversion. *)
Theorem listing_conversion_idempotent (child_id : string) (limit : Z) :
  match list_messages get_documents float_str datetime_str isoformat
          child_id limit with
  | Returned items =>
      forall (c : string) (n : Z),
        list_messages (fun _ _ _ => Returned items)
          float_str datetime_str isoformat c n = Returned items
  | Raised _ => True
  end
  /\ match list_risk get_documents float_str datetime_str isoformat
             child_id limit with
     | Returned items =>
         forall (c : string) (n : Z),
           list_risk (fun _ _ _ => Returned items)
             float_str datetime_str isoformat c n = Returned items
     | Raised _ => True
     end.
Proof.
  unfold list_messages, list_risk; split.
  - destruct (get_documents "message" _ limit) as [docs|e]; [|exact I].
    intros _ _; cbv beta iota; apply f_equal; rewrite map_map.
    apply map_ext; intros d.
    apply (body_idem float_str datetime_str isoformat "created_at");
      discriminate.
  - destruct (get_documents "riskevent" _ limit) as [docs|e]; [|exact I].
    intros _ _; cbv beta iota; apply f_equal; rewrite map_map.
    apply map_ext; intros d.
    apply (body_idem float_str datetime_str isoformat "occurred_at");
      discriminate.
Qed.

End ListingFacts.

(** ** [/api/positivity] *)

Lemma random_choice_in (draw : nat) (seq : list string) :
  seq <> [] -> exists x, random_choice draw seq = Some x /\ In x seq.
Proof.
  intros Hne; unfold random_choice.
  assert (Hlt : (draw mod length seq < length seq)%nat).
  { apply Nat.mod_upper_bound; destruct seq; [now elim Hne | discriminate]. }
  destruct (nth_error seq (draw mod length seq)) as [x|] eqn:E.
  - exists x; split; [reflexivity | eapply nth_error_In; exact E].
  - apply nth_error_None in E; lia.
Qed.

(** Whatever the generator draws, [positivity] returns an affirmation
    of [POSITIVE_AFFIRMATIONS], a quote of [QUOTES] and a joke of
    [JOKES], under these three keys in this order; it never fails, the
    three lists being non-empty; and every affirmation, quote and joke
    of the lists is returned for some draw. *)
Theorem positivity_members (draw1 draw2 draw3 : nat) :
  (exists affirmation quote joke : string,
      positivity draw1 draw2 draw3
      = Some [("affirmation", affirmation); ("quote", quote); ("joke", joke)]
      /\ In affirmation POSITIVE_AFFIRMATIONS
      /\ In quote QUOTES
      /\ In joke JOKES)
  /\ (forall affirmation quote joke : string,
        In affirmation POSITIVE_AFFIRMATIONS -> In quote QUOTES ->
        In joke JOKES ->
        exists d1 d2 d3 : nat,
          positivity d1 d2 d3
          = Some [("affirmation", affirmation); ("quote", quote);
                  ("joke", joke)]).
Proof.
  split.
  - unfold positivity.
    destruct (random_choice_in draw1 POSITIVE_AFFIRMATIONS) as (a & -> & Ha);
      [discriminate|].
    destruct (random_choice_in draw2 QUOTES) as (q & -> & Hq); [discriminate|].
    destruct (random_choice_in draw3 JOKES) as (j & -> & Hj); [discriminate|].
    now exists a, q, j.
  - intros a q j Ha Hq Hj.
    apply In_nth_error in Ha as [d1 Ha].
    apply In_nth_error in Hq as [d2 Hq].
    apply In_nth_error in Hj as [d3 Hj].
    assert (H1 : (d1 < 3)%nat)
      by (apply (nth_error_Some POSITIVE_AFFIRMATIONS); congruence).
    assert (H2 : (d2 < 2)%nat) by (apply (nth_error_Some QUOTES); congruence).
    assert (H3 : (d3 < 2)%nat) by (apply (nth_error_Some JOKES); congruence).
    exists d1, d2, d3; unfold positivity, random_choice.
    cbn [length POSITIVE_AFFIRMATIONS QUOTES JOKES].
    rewrite !Nat.mod_small by assumption.
    fold POSITIVE_AFFIRMATIONS QUOTES JOKES.
    now rewrite Ha, Hq, Hj.
Qed.

Lemma positivity_members_witness :
  exists d1 d2 d3 : nat,
    positivity d1 d2 d3
    = Some [("affirmation", "Your feelings matter and so do you.");
            ("quote", "This too shall pass.");
            ("joke",
             "Why did the math book look sad? It had too many problems.")].
Proof.
  apply (proj2 (positivity_members 0 0 0)); simpl; tauto.
Defined.
